(** * Skill-gap analysis: a shallow embedding of [app.py]

    The development follows the source file top to bottom: Python's string
    primitives, [parse_skills], the job lookup of [find_missing_skills],
    [calculate_total_duration], the two course recommenders and the POST
    branch of [index].  The four data frames are passed explicitly, as
    lists of row records in file order. *)

From Stdlib Require Import ZArith QArith Qround Lqa Ascii String.
From stdpp Require Import base list strings gmap sorting.

(** ** Python strings

    A [string] is read as a sequence of code points below 256.  On those,
    [isspace] and [lower_char] are Python's [str.isspace] and [str.lower]:
    the white space characters are U+0009..U+000D, U+001C..U+0020, U+0085
    and U+00A0; the upper-case letters are A..Z and U+00C0..U+00DE without
    the multiplication sign U+00D7. *)

Module Py.

Definition isspace (c : ascii) : bool :=
  let n := N_of_ascii c in
  ((9 <=? n) && (n <=? 13) || (28 <=? n) && (n <=? 32)
   || (n =? 133) || (n =? 160))%N.

Definition isupper (c : ascii) : bool :=
  let n := N_of_ascii c in
  ((65 <=? n) && (n <=? 90)
   || (192 <=? n) && (n <=? 222) && negb (n =? 215))%N.

Definition lower_char (c : ascii) : ascii :=
  if isupper c then ascii_of_N (N_of_ascii c + 32) else c.

(** [s.lower()] *)
Fixpoint lower (s : string) : string :=
  match s with
  | EmptyString => EmptyString
  | String c s' => String (lower_char c) (lower s')
  end.

Fixpoint lstrip (s : string) : string :=
  match s with
  | EmptyString => EmptyString
  | String c s' => if isspace c then lstrip s' else s
  end.

Fixpoint rstrip (s : string) : string :=
  match s with
  | EmptyString => EmptyString
  | String c s' =>
      match rstrip s' with
      | EmptyString => if isspace c then EmptyString else String c EmptyString
      | r => String c r
      end
  end.

(** [s.strip()] *)
Definition strip (s : string) : string := rstrip (lstrip s).

(** [s.split(sep)] for a one-character separator: the first piece and the
    pieces after it.  Every separator ends a piece, so the result has one
    piece more than [s] has separators, empty pieces included. *)
Fixpoint split_at (sep : ascii) (s : string) : string * list string :=
  match s with
  | EmptyString => (EmptyString, [])
  | String c s' =>
      let '(p, ps) := split_at sep s' in
      if Ascii.eqb c sep then (EmptyString, p :: ps) else (String c p, ps)
  end.

Definition split (sep : ascii) (s : string) : list string :=
  let '(p, ps) := split_at sep s in p :: ps.

(** [pat in s] on strings: [pat] occurs in [s] as a contiguous substring. *)
Fixpoint contains (s pat : string) : bool :=
  String.prefix pat s ||
  match s with
  | EmptyString => false
  | String _ s' => contains s' pat
  end.

(** Truth value of a list: [not l] is [is_empty l]. *)
Definition is_empty {A} (l : list A) : bool :=
  match l with [] => true | _ => false end.

(** [l[:limit]]: a negative [limit] counts from the end. *)
Definition slice_to {A} (limit : Z) (l : list A) : list A :=
  if (limit <? 0)%Z
  then take (Z.to_nat (Z.of_nat (length l) + limit)) l
  else take (Z.to_nat limit) l.

(** [l.sort(key=..., reverse=True)], given [lt a b] for [key(a) < key(b)].
    Python's sort is stable, also under [reverse=True]: records whose keys
    tie keep the order they had.  An element is put in front of the sorted
    rest of the list, behind the elements that are strictly greater.

    Where the keys are totally ordered by [<] this is the list Python
    returns, the stable descending order being unique.  Where they are not
    (a NaN rating among three or more courses) the order that Python's
    merge sort leaves depends on the comparisons it happens to make, and
    this function is not a model of it: what is proved of the order of a
    result is proved of keys that are numbers. *)
Fixpoint insert_desc {A} (lt : A -> A -> bool) (x : A) (l : list A) : list A :=
  match l with
  | [] => [x]
  | y :: l' => if lt x y then y :: insert_desc lt x l' else x :: l
  end.

Fixpoint sort_reverse {A} (lt : A -> A -> bool) (l : list A) : list A :=
  match l with
  | [] => []
  | x :: l' => insert_desc lt x (sort_reverse lt l')
  end.

(** [a] does not come below [b]: what holds between an earlier and a later
    element of a list sorted in descending order. *)
Definition not_below {A} (lt : A -> A -> bool) (a b : A) : Prop :=
  lt a b = false.

(** A [dict] with string keys, in insertion order.  [d[k] = v] replaces the
    value of a key that is present, where it stands, and appends a new key. *)
Fixpoint dict_set {V} (k : string) (v : V) (d : list (string * V))
  : list (string * V) :=
  match d with
  | [] => [(k, v)]
  | (k', v') :: d' =>
      if decide (k = k') then (k', v) :: d' else (k', v') :: dict_set k v d'
  end.

Fixpoint dict_get {V} (k : string) (d : list (string * V)) : option V :=
  match d with
  | [] => None
  | (k', v') :: d' => if decide (k = k') then Some v' else dict_get k d'
  end.

(** Number of occurrences of a character, for counting separators. *)
Fixpoint count_char (c : ascii) (s : string) : nat :=
  match s with
  | EmptyString => 0
  | String d s' => (if Ascii.eqb d c then 1 else 0) + count_char c s'
  end.

End Py.

(** A cell of a text column of a data frame: a string, or the missing
    value NaN that [read_csv] puts where the file has an empty field. *)
Inductive cell := Text (s : string) | NaN.

Global Instance cell_eq_dec : EqDecision cell.
Proof. solve_decision. Defined.

(** [Series.str.lower()] leaves a missing value missing. *)
Definition str_lower (c : cell) : cell :=
  match c with Text s => Text (Py.lower s) | NaN => NaN end.

(** ** Utility *)

Definition parse_skills (skill_text : cell) : list string :=
  match skill_text with
  | Text t =>
      match Py.strip t with
      | EmptyString => []
      | _ => map (fun s => Py.lower (Py.strip s)) (Py.split ","%char t)
      end
  | NaN => []
  end.

(** ** Exceptions

    A call either returns or raises; the exceptions of the model are
    [re.error], from compiling a pattern, and [TypeError], from [in]
    applied to a missing value.

    The columns read through [.str] ("Job Title", "Skill Name" and the two
    "skills" columns) are taken to be text columns: pandas gives a column
    that has rows but no text in any of them the type [float64], and
    [.str] raises [AttributeError] on it.  That exception is not in the
    model; [text_column] below says of a column that it cannot occur. *)

Inductive exn := ReError | TypeError.

Inductive result (A : Type) := Ok (a : A) | Raise (e : exn).
Global Arguments Ok {A} a.
Global Arguments Raise {A} e.

Global Instance result_ret : MRet result := fun A a => Ok a.
Global Instance result_bind : MBind result := fun A B f m =>
  match m with Ok a => f a | Raise e => Raise e end.
Global Instance result_fmap : FMap result := fun A B f m =>
  match m with Ok a => Ok (f a) | Raise e => Raise e end.

(** A column of which [.str] can be taken: it has no rows, or text in one
    of them. *)
Definition text_column (column : list cell) : Prop :=
  column = [] \/ exists s, Text s ∈ column.

(** ** Numbers

    The numeric cells (estimated hours, ratings) are numpy integers or
    floats, [hours_per_day] is a Python float and the running total starts
    from the Python integer 0.  The code uses them through [+], [/],
    [round(x, 1)], [<] and [==] only, so these are taken as an interface;
    what the operations do on machine numbers is in the instance
    [Q_number] below. *)

Class Number := {
  num : Type;
  nzero : num;                (* the literal 0 *)
  nadd : num -> num -> num;   (* x + y *)
  ndiv : num -> num -> num;   (* x / y *)
  nround1 : num -> num;       (* round(x, 1) *)
  nlt : num -> num -> bool;   (* x < y *)
  neq : num -> num -> bool    (* x == y *)
}.

(** [x <= y], [x > y] and [x >= y], as they relate to [<] and [==]. *)
Definition nle `{Number} (x y : num) : bool := nlt x y || neq x y.
Definition ngt `{Number} (x y : num) : bool := nlt y x.
Definition nge `{Number} (x y : num) : bool := nle y x.

(** [x == x] fails for NaN only. *)
Definition is_number `{Number} (x : num) : bool := neq x x.

(** The order laws of the numbers: only numbers compare (NaN does not),
    and they are totally ordered. *)
Class NumberOrder `{Number} : Prop := {
  nle_number x y : nle x y -> is_number x /\ is_number y;
  nle_trans x y z : nle x y -> nle y z -> nle x z;
  nlt_nle x y : is_number x -> is_number y -> nlt x y = negb (nle y x);
  neq_nle x y : neq x y = nle x y && nle y x
}.

(** Comparison of the tuples [(n, x)] that [suggest_foundation_courses]
    sorts by: the first components that differ (by [==]) decide. *)
Definition tuple_lt `{Number} (a b : nat * num) : bool :=
  if a.1 =? b.1 then (if neq a.2 b.2 then false else nlt a.2 b.2)
  else a.1 <? b.1.

Definition tuple_ge `{Number} (a b : nat * num) : bool :=
  if a.1 =? b.1 then (if neq a.2 b.2 then true else nge a.2 b.2)
  else b.1 <=? a.1.

(** ** Regular expressions

    [Series.str.contains(pat, na=False)] is called without [regex=False],
    so pandas compiles [pat] as a regular expression and keeps the rows in
    which it is found.  [re_compile pat] is [re.compile(pat)] followed by
    [lambda x: regex.search(x) is not None]; it is [None] when compiling
    raises [re.error]. *)

Class Regex := { re_compile : string -> option (string -> bool) }.

(** The characters with a meaning in a pattern. *)
Definition re_special (c : ascii) : bool :=
  bool_decide (c ∈ String.list_ascii_of_string ".^$*+?{}[]\|()").

Fixpoint re_literal (pat : string) : bool :=
  match pat with
  | EmptyString => true
  | String c pat' => negb (re_special c) && re_literal pat'
  end.

(** A pattern without special characters is found where it occurs as a
    substring. *)
Class RegexLiteral `{Regex} : Prop :=
  re_compile_literal pat :
    re_literal pat ->
    exists search, re_compile pat = Some search /\
                   forall s, search s = Py.contains s pat.

Definition str_contains `{Regex} (pat : string) : result (cell -> bool) :=
  match re_compile pat with
  | Some search =>
      Ok (fun c => match c with Text s => search s | NaN => false end)
  | None => Raise ReError
  end.

(** ** The data frames *)

Record JobRow := {
  job_title : cell;             (* "Job Title" *)
  skill_requirements : cell     (* "Skill Requirements" *)
}.

Record SkillTimeRow `{Number} := {
  skill_name : cell;            (* "Skill Name" *)
  estimated_hours : num         (* "Estimated Completion Time (hours)" *)
}.

Record ProfessionalRow := {
  p_title : cell; p_link : cell; p_provider : cell; p_platform : cell;
  p_credential : cell; p_duration : cell; p_skills : cell
}.

Record FoundationRow `{Number} := {
  f_title : cell; f_link : cell; f_provider : cell; f_platform : cell;
  f_credential : cell; f_duration : cell; f_skills : cell; f_rating : num
}.

(** ** Gap analysis *)

(** What [find_missing_skills] returns: [(None, None, None, None)], or the
    title cell of the chosen row with the three skill lists. *)
Inductive gap :=
  | NoJob
  | Gap (title : cell) (required matched missing : list string).

Definition exact_match (job_details_df : list JobRow) (target_job : string)
  : list JobRow :=
  filter (fun r => str_lower (job_title r) = Text (Py.lower target_job))
         job_details_df.

Definition partial_match `{Regex} (job_details_df : list JobRow)
    (target_job : string) : result (list JobRow) :=
  found ← str_contains (Py.lower target_job);
  Ok (filter (fun r => found (str_lower (job_title r)) = true) job_details_df).

Definition find_missing_skills `{Regex} (job_details_df : list JobRow)
    (target_job current_skills : string) : result gap :=
  let job_row := exact_match job_details_df target_job in
  job_row ← (if Py.is_empty job_row
             then partial_match job_details_df target_job
             else Ok job_row);
  match job_row with
  | [] => Ok NoJob
  | job_row :: _ =>
      let required_skills := parse_skills (skill_requirements job_row) in
      let user_skills := parse_skills (Text current_skills) in
      let missing := filter (fun s => s ∉ user_skills) required_skills in
      let matched := filter (fun s => s ∈ user_skills) required_skills in
      Ok (Gap (job_title job_row) required_skills matched missing)
  end.

(** The words of the specification, to compare the lookup with: the first
    row, in file order, whose lower-cased title equals the lower-cased
    target; when there is none, the first row whose lower-cased title
    contains it as a substring. *)
Definition title_equals (target_job : string) (r : JobRow) : bool :=
  match job_title r with
  | Text t => bool_decide (Py.lower t = Py.lower target_job)
  | NaN => false
  end.

Definition title_contains (target_job : string) (r : JobRow) : bool :=
  match job_title r with
  | Text t => Py.contains (Py.lower t) (Py.lower target_job)
  | NaN => false
  end.

Definition resolve_job (job_details_df : list JobRow) (target_job : string)
  : option JobRow :=
  match find (title_equals target_job) job_details_df with
  | Some r => Some r
  | None => find (title_contains target_job) job_details_df
  end.

(** The result for a chosen row. *)
Definition gap_of (current_skills : string) (job_row : option JobRow) : gap :=
  match job_row with
  | None => NoJob
  | Some job_row =>
      let required_skills := parse_skills (skill_requirements job_row) in
      let user_skills := parse_skills (Text current_skills) in
      Gap (job_title job_row) required_skills
          (filter (fun s => s ∈ user_skills) required_skills)
          (filter (fun s => s ∉ user_skills) required_skills)
  end.

(** ** Duration estimate *)

(** [skill_time_df[skill_time_df["Skill Name"].str.lower() == skill.lower()]] *)
Definition duration_rows `{Number} (skill_time_df : list SkillTimeRow)
    (skill : string) : list SkillTimeRow :=
  filter (fun r => str_lower (skill_name r) = Text (Py.lower skill))
         skill_time_df.

(** The loop of [calculate_total_duration]: its state is [total_hours] and
    the [skill_hours] dict. *)
Definition duration_step `{Number} (skill_time_df : list SkillTimeRow)
    (st : num * list (string * option num)) (skill : string)
  : num * list (string * option num) :=
  let '(total_hours, skill_hours) := st in
  match duration_rows skill_time_df skill with
  | row :: _ =>
      let hours := estimated_hours row in
      (nadd total_hours hours, Py.dict_set skill (Some hours) skill_hours)
  | [] => (total_hours, Py.dict_set skill None skill_hours)
  end.

Definition duration_loop `{Number} (skill_time_df : list SkillTimeRow)
    (missing_skills : list string) : num * list (string * option num) :=
  fold_left (duration_step skill_time_df) missing_skills (nzero, []).

Definition calculate_total_duration `{Number}
    (skill_time_df : list SkillTimeRow) (missing_skills : list string)
    (hours_per_day : num) : num * list (string * option num) :=
  let '(total_hours, skill_hours) := duration_loop skill_time_df missing_skills in
  let total_days :=
    if ngt hours_per_day nzero then ndiv total_hours hours_per_day
    else total_hours in
  (nround1 total_days, skill_hours).

(** The words of the specification, to compare the loop with: the entry of
    a skill is the hours of the first row whose name is the skill's up to
    case, and the total is the sum over the skills that have one. *)
Fixpoint duration_entry `{Number} (skill_time_df : list SkillTimeRow)
    (skill : string) : option num :=
  match skill_time_df with
  | [] => None
  | r :: df =>
      match skill_name r with
      | Text name =>
          if decide (Py.lower name = Py.lower skill)
          then Some (estimated_hours r) else duration_entry df skill
      | NaN => duration_entry df skill
      end
  end.

Definition sum_hours `{Number} (hs : list num) : num :=
  fold_left nadd hs nzero.

Definition known_hours `{Number} (skill_time_df : list SkillTimeRow)
    (skills : list string) : list num :=
  omap (duration_entry skill_time_df) skills.

(** ** Course recommendation *)

(** [lambda s: any(skill.lower() in s for skill in missing_skills)], applied
    to a cell of the lower-cased "skills" column.  On a missing value the
    first [in] raises. *)
Definition mentions_any (missing_skills : list string) (s : cell)
  : result bool :=
  match missing_skills, s with
  | [], _ => Ok false
  | _ :: _, NaN => Raise TypeError
  | _ :: _, Text s =>
      Ok (existsb (fun skill => Py.contains s (Py.lower skill)) missing_skills)
  end.

(** [df[column.apply(f)]]: [f] is applied to every row, then the rows where
    it gave [True] are kept. *)
Fixpoint rows_where {A} (f : A -> result bool) (df : list A)
  : result (list A) :=
  match df with
  | [] => Ok []
  | r :: df' =>
      b ← f r;
      rest ← rows_where f df';
      Ok (if b : bool then r :: rest else rest)
  end.

(** [[s for s in missing_skills if s in set(parse_skills(skills))]] *)
Definition covered (missing_skills : list string) (skills : cell)
  : list string :=
  let course_skill_set : gset string := list_to_set (parse_skills skills) in
  filter (fun s => s ∈ course_skill_set) missing_skills.

Record ProfessionalCourse := {
  pc_title : cell; pc_link : cell; pc_provider : cell; pc_platform : cell;
  pc_credential : cell; pc_duration : cell;
  pc_covered_skills : list string; pc_total_covered : nat
}.

Record FoundationCourse `{Number} := {
  fc_title : cell; fc_link : cell; fc_provider : cell; fc_platform : cell;
  fc_credential : cell; fc_duration : cell; fc_rating : num;
  fc_covered_skills : list string; fc_total_covered : nat
}.

Definition professional_entry (missing_skills : list string)
    (course : ProfessionalRow) : ProfessionalCourse :=
  let covered_skills := covered missing_skills (p_skills course) in
  {| pc_title := p_title course; pc_link := p_link course;
     pc_provider := p_provider course; pc_platform := p_platform course;
     pc_credential := p_credential course; pc_duration := p_duration course;
     pc_covered_skills := covered_skills;
     pc_total_covered := length covered_skills |}.

(** [updated_courses] before it is sorted.  The "skills" column is read
    as a text column: see [text_column] for the one case in which pandas
    does not. *)
Definition professional_updated (professional_df : list ProfessionalRow)
    (missing_skills : list string) : result (list ProfessionalCourse) :=
  filtered ← rows_where
    (fun course => mentions_any missing_skills (str_lower (p_skills course)))
    professional_df;
  Ok (map (professional_entry missing_skills) filtered).

Definition professional_lt (a b : ProfessionalCourse) : bool :=
  pc_total_covered a <? pc_total_covered b.

Definition suggest_professional_courses
    (professional_df : list ProfessionalRow) (missing_skills : list string)
    (limit : Z) : result (list ProfessionalCourse) :=
  if Py.is_empty missing_skills then Ok []
  else
    updated_courses ← professional_updated professional_df missing_skills;
    Ok (Py.slice_to limit (Py.sort_reverse professional_lt updated_courses)).

Definition foundation_entry `{Number} (missing_skills : list string)
    (course : FoundationRow) : FoundationCourse :=
  let covered_skills := covered missing_skills (f_skills course) in
  {| fc_title := f_title course; fc_link := f_link course;
     fc_provider := f_provider course; fc_platform := f_platform course;
     fc_credential := f_credential course; fc_duration := f_duration course;
     fc_rating := f_rating course;
     fc_covered_skills := covered_skills;
     fc_total_covered := length covered_skills |}.

Definition foundation_updated `{Number} (foundation_df : list FoundationRow)
    (missing_skills : list string) : result (list FoundationCourse) :=
  filtered ← rows_where
    (fun course => mentions_any missing_skills (str_lower (f_skills course)))
    foundation_df;
  Ok (map (foundation_entry missing_skills) filtered).

Definition foundation_key `{Number} (c : FoundationCourse) : nat * num :=
  (fc_total_covered c, fc_rating c).

Definition foundation_lt `{Number} (a b : FoundationCourse) : bool :=
  tuple_lt (foundation_key a) (foundation_key b).

Definition suggest_foundation_courses `{Number}
    (foundation_df : list FoundationRow) (missing_skills : list string)
    (limit : Z) : result (list FoundationCourse) :=
  if Py.is_empty missing_skills then Ok []
  else
    updated_courses ← foundation_updated foundation_df missing_skills;
    Ok (Py.slice_to limit (Py.sort_reverse foundation_lt updated_courses)).

(** The coarse filter in the words of the specification: the lower-cased
    skills text contains the lower-cased form of some missing skill. *)
Definition is_candidate (missing_skills : list string) (skills : cell) : bool :=
  match skills with
  | Text s =>
      existsb (fun skill => Py.contains (Py.lower s) (Py.lower skill))
              missing_skills
  | NaN => false
  end.

(** The candidates with their scores, in the order of the data frame. *)
Definition professional_candidates (professional_df : list ProfessionalRow)
    (missing_skills : list string) : list ProfessionalCourse :=
  professional_entry missing_skills <$>
    filter (fun r => is_candidate missing_skills (p_skills r)) professional_df.

Definition foundation_candidates `{Number} (foundation_df : list FoundationRow)
    (missing_skills : list string) : list FoundationCourse :=
  foundation_entry missing_skills <$>
    filter (fun r => is_candidate missing_skills (f_skills r)) foundation_df.

(** [a == b] on the tuples [(n, x)]. *)
Definition tuple_eq `{Number} (a b : nat * num) : bool :=
  (a.1 =? b.1) && neq a.2 b.2.

(** ** Routes *)

Record Store `{Number} := {
  job_details_df : list JobRow;
  skill_time_df : list SkillTimeRow;
  foundation_df : list FoundationRow;
  professional_df : list ProfessionalRow
}.

(** What the POST branch of [index] hands to [render_template]. *)
Inductive page `{Number} :=
  | ErrorPage      (* error="Job not found in file database." *)
  | ResultPage (target_job : string)
      (required matched missing : list string)
      (total_days : num) (skill_hours : list (string * option num))
      (hours_per_day : num)
      (professional_courses : list ProfessionalCourse)
      (foundation_courses : list FoundationCourse).

(** The POST branch of [index], from the call of [find_missing_skills] on;
    [hours_per_day] is the form field after [float].  [not required] holds
    of [None] and of the empty list. *)
Definition index_post `{Number} `{Regex} (db : Store)
    (target_job current_skills : string) (hours_per_day : num)
  : result page :=
  g ← find_missing_skills (job_details_df db) target_job current_skills;
  match g with
  | NoJob => Ok ErrorPage
  | Gap job_id required matched missing =>
      if Py.is_empty required then Ok ErrorPage
      else
        let '(total_days, skill_hours) :=
          calculate_total_duration (skill_time_df db) missing hours_per_day in
        professional_courses ←
          suggest_professional_courses (professional_df db) missing 4;
        foundation_courses ←
          suggest_foundation_courses (foundation_df db) missing 4;
        Ok (ResultPage target_job required matched missing total_days
              skill_hours hours_per_day professional_courses
              foundation_courses)
  end.

(** ** Instances to compute with

    [round(x, 1)] on exact rationals: the nearest tenth, ties to the even
    one. *)

Definition Qround1 (q : Q) : Q :=
  let t := (q * 10)%Q in
  let f := Qfloor t in
  match (t - inject_Z f ?= 1 # 2)%Q with
  | Lt => f # 10
  | Gt => (f + 1) # 10
  | Eq => if Z.even f then f # 10 else (f + 1) # 10
  end.

(** The numbers of the data frames.  A numeric column that holds integers
    only is read as [int64]: [Qint z] is the 64-bit integer [z], and the
    sum of two of them wraps around.  Any other numeric column, and
    [hours_per_day], hold floats: [Qnum q] is a finite float, taken as the
    exact rational [q] (the rounding of float arithmetic, and a finite sum
    that leaves the range of floats, are not modelled), [Qinf] the two
    infinities and [Qnan] the value of an empty numeric field.  NaN
    propagates through the arithmetic and compares [False] with
    everything, itself included. *)
Inductive qnan := Qint (z : Z) | Qnum (q : Q) | Qinf (negative : bool) | Qnan.

(** The value of [z] as an [int64]. *)
Definition wrap64 (z : Z) : Z := ((z + 2 ^ 63) mod 2 ^ 64 - 2 ^ 63)%Z.

(** The value of a finite number. *)
Definition qfinite (x : qnan) : option Q :=
  match x with
  | Qint z => Some (inject_Z z)
  | Qnum q => Some q
  | Qinf _ | Qnan => None
  end.

(** [x + y]: two integers give an integer, an integer and a float give a
    float. *)
Definition qadd (x y : qnan) : qnan :=
  match x, y with
  | Qint a, Qint b => Qint (wrap64 (a + b))
  | Qnan, _ | _, Qnan => Qnan
  | Qinf s, Qinf t => if Bool.eqb s t then Qinf s else Qnan
  | Qinf s, _ | _, Qinf s => Qinf s
  | Qint a, Qnum b => Qnum (inject_Z a + b)
  | Qnum a, Qint b => Qnum (a + inject_Z b)
  | Qnum a, Qnum b => Qnum (a + b)
  end.

(** [x / y] is a float.  The code divides by [hours_per_day] where it is
    greater than 0 only; a zero divisor is given NaN here. *)
Definition qdiv (x y : qnan) : qnan :=
  match qfinite x, qfinite y with
  | Some a, Some b => if Qeq_bool b 0 then Qnan else Qnum (a / b)
  | Some a, None => match y with Qinf _ => Qnum 0 | _ => Qnan end
  | None, Some b =>
      match x with
      | Qinf s =>
          if Qeq_bool b 0 then Qnan else Qinf (xorb s (negb (Qle_bool 0 b)))
      | _ => Qnan
      end
  | None, None => Qnan
  end.

Definition qround1 (x : qnan) : qnan :=
  match x with
  | Qnum q => Qnum (Qround1 q)
  | Qint _ | Qinf _ | Qnan => x
  end.

(** Where a number stands in the order: the infinities below and above
    the finite numbers, which compare by value, integer or float. *)
Definition qrank (x : qnan) : option (Z * Q) :=
  match x with
  | Qint z => Some (0%Z, inject_Z z)
  | Qnum q => Some (0%Z, q)
  | Qinf negative => Some (if negative then (-1)%Z else 1%Z, 0%Q)
  | Qnan => None
  end.

Definition qlt (x y : qnan) : bool :=
  match qrank x, qrank y with
  | Some (s, a), Some (t, b) =>
      (s <? t)%Z || ((s =? t)%Z && negb (Qle_bool b a))
  | _, _ => false
  end.

Definition qeq (x y : qnan) : bool :=
  match qrank x, qrank y with
  | Some (s, a), Some (t, b) => (s =? t)%Z && Qeq_bool a b
  | _, _ => false
  end.

Global Instance Q_number : Number := {|
  num := qnan;
  nzero := Qint 0;
  nadd := qadd;
  ndiv := qdiv;
  nround1 := qround1;
  nlt := qlt;
  neq := qeq
|}.

(** A finite number that is not negative, a finite number above 0, and the
    sum as mathematical integers of the [int64] numbers of a list. *)
Definition nonneg_finite (x : qnan) : Prop :=
  match qfinite x with Some q => (0 <= q)%Q | None => False end.

Definition positive_finite (x : qnan) : Prop :=
  match qfinite x with Some q => (0 < q)%Q | None => False end.

Definition int_part (x : qnan) : Z :=
  match x with Qint z => z | _ => 0%Z end.

Definition int_total (hs : list qnan) : Z :=
  foldr (fun h s => (int_part h + s)%Z) 0%Z hs.

(** The patterns made of plain characters and [.], which stands for any
    character but a newline.  The instance answers for these patterns
    only: on a pattern with further syntax it gives [None] whether or not
    Python compiles it, and nothing is evaluated there. *)
Fixpoint dot_match (pat s : string) : bool :=
  match pat, s with
  | EmptyString, _ => true
  | String _ _, EmptyString => false
  | String p pat', String c s' =>
      (if Ascii.eqb p "." then negb (Ascii.eqb c "010") else Ascii.eqb p c)
      && dot_match pat' s'
  end.

Fixpoint dot_search (pat s : string) : bool :=
  dot_match pat s ||
  match s with
  | EmptyString => false
  | String _ s' => dot_search pat s'
  end.

Fixpoint dot_pattern (pat : string) : bool :=
  match pat with
  | EmptyString => true
  | String c pat' => (Ascii.eqb c "." || negb (re_special c)) && dot_pattern pat'
  end.

Global Instance dot_regex : Regex := {|
  re_compile pat := if dot_pattern pat then Some (dot_search pat) else None
|}.

(** ** Data of the examples *)

Definition jobs_scenario : list JobRow :=
  [ {| job_title := Text "Data Analyst";
       skill_requirements := Text "sql, excel, python" |} ].

Definition jobs_net : list JobRow :=
  [ {| job_title := Text "Internet Marketer";
       skill_requirements := Text "seo, content" |};
    {| job_title := Text ".NET Developer";
       skill_requirements := Text "c#, sql" |} ].

Definition durations_scenario : list SkillTimeRow :=
  [ {| skill_name := Text "sql"; estimated_hours := Qnum 10 |};
    {| skill_name := Text "excel"; estimated_hours := Qnum 5 |} ].

(** A duration file whose hours are integers, and one in which the hours
    of two skills add up to 2^63. *)
Definition durations_int : list SkillTimeRow :=
  [ {| skill_name := Text "sql"; estimated_hours := Qint 10 |};
    {| skill_name := Text "excel"; estimated_hours := Qint 5 |} ].

Definition durations_overflow : list SkillTimeRow :=
  [ {| skill_name := Text "thesis";
       estimated_hours := Qint 9223372036854775807 |};
    {| skill_name := Text "abstract"; estimated_hours := Qint 1 |} ].

Definition course (title skills : string) : ProfessionalRow :=
  {| p_title := Text title; p_link := NaN; p_provider := NaN;
     p_platform := NaN; p_credential := NaN; p_duration := NaN;
     p_skills := Text skills |}.

Definition rated_course (title skills : string) (rating : qnan)
  : FoundationRow :=
  {| f_title := Text title; f_link := NaN; f_provider := NaN;
     f_platform := NaN; f_credential := NaN; f_duration := NaN;
     f_skills := Text skills; f_rating := rating |}.

Definition professional_scenario : list ProfessionalRow :=
  [ course "Intro" "excel"; course "A" "Excel, Python, R";
    course "B" "python, excel"; course "Cooking" "knives" ].

Definition foundation_scenario : list FoundationRow :=
  [ rated_course "Low" "excel" (Qnum (41 # 10));
    rated_course "High" "excel" (Qnum (47 # 10));
    rated_course "Both" "python, excel" (Qnum (30 # 10));
    rated_course "Tie" "excel" (Qnum (47 # 10)) ].

Definition professional_substring : list ProfessionalRow :=
  [ course "Statistics with R" "programming, statistics" ].

(** A professional file in which the second course has an empty skills
    field. *)
Definition professional_unreadable : list ProfessionalRow :=
  [ course "Cooking" "knives";
    {| p_title := Text "Untitled"; p_link := NaN; p_provider := NaN;
       p_platform := NaN; p_credential := NaN; p_duration := NaN;
       p_skills := NaN |} ].

Definition store_scenario : Store :=
  {| job_details_df := jobs_scenario;
     skill_time_df := durations_scenario;
     foundation_df := foundation_scenario;
     professional_df := professional_scenario |}.

(** A jobs file in which the row of "Data Analyst" has an empty
    "Skill Requirements" field. *)
Definition store_no_requirements : Store :=
  {| job_details_df :=
       [ {| job_title := Text "Data Analyst"; skill_requirements := NaN |} ];
     skill_time_df := durations_scenario;
     foundation_df := foundation_scenario;
     professional_df := professional_scenario |}.

(** A foundation file in which the first course has an empty rating. *)
Definition foundation_unrated : list FoundationRow :=
  [ rated_course "Unrated" "excel" Qnan;
    rated_course "Rated" "excel" (Qnum (45 # 10)) ].

(** ** Job search API *)

(** [search_jobs]: [q] is the query argument of the request, if it has
    one; the answer is the list that [jsonify] is given. *)
Definition search_jobs `{Regex} (job_details_df : list JobRow)
    (q : option string) : result (list cell) :=
  let query := Py.lower (default EmptyString q) in
  found ← str_contains query;
  let jobs :=
    take 10 (job_title <$>
             filter (fun r => found (str_lower (job_title r)) = true)
                    job_details_df) in
  Ok jobs.

(** ** Relations used to state properties *)

(** [p] occurs in [s] as a contiguous substring. *)
Definition substring_of (p s : string) : Prop :=
  exists a b, s = (a +:+ p +:+ b).

(** The distinct elements of a list, in the order of their first
    occurrences. *)
Fixpoint first_occurrences (l : list string) : list string :=
  match l with
  | [] => []
  | x :: l' => x :: filter (fun y => y <> x) (first_occurrences l')
  end.

Definition jobs_mixed : list JobRow :=
  [ {| job_title := Text "Data Analyst";
       skill_requirements := Text "sql, excel, python" |};
    {| job_title := NaN; skill_requirements := Text "sql" |};
    {| job_title := Text "C++ Developer";
       skill_requirements := Text "c++, git" |};
    {| job_title := Text "Data Engineer";
       skill_requirements := NaN |} ].

(** A store whose professional file has a row without skills text. *)
Definition store_unreadable : Store :=
  {| job_details_df := jobs_scenario;
     skill_time_df := durations_scenario;
     foundation_df := foundation_scenario;
     professional_df := professional_unreadable |}.

(** * Properties *)

(** ** Strings *)

Lemma lower_empty s : Py.lower s = EmptyString <-> s = EmptyString.
Proof. destruct s; simpl; split; congruence. Qed.

Lemma split_at_length sep s :
  length (Py.split_at sep s).2 = Py.count_char sep s.
Proof.
  induction s as [|c s IH]; simpl; [done|].
  destruct (Py.split_at sep s) as [p ps]; simpl in *.
  destruct (Ascii.eqb c sep); simpl; lia.
Qed.

Lemma split_length sep s :
  length (Py.split sep s) = S (Py.count_char sep s).
Proof.
  unfold Py.split. pose proof (split_at_length sep s) as H.
  destruct (Py.split_at sep s); simpl in *. lia.
Qed.

Example parse_skills_scenario :
  parse_skills (Text "SQL, Power BI") = ["sql"; "power bi"].
Proof. reflexivity. Qed.

Example parse_skills_blank : parse_skills (Text "  ") = [].
Proof. reflexivity. Qed.

Example parse_skills_double_comma :
  parse_skills (Text "sql,,excel") = ["sql"; ""; "excel"].
Proof. reflexivity. Qed.

Example re_special_backslash : re_special "\" = true /\ re_special "a" = false.
Proof. split; reflexivity. Qed.

(** ** Skill parser *)

(** C5, as stated, fails: the text "sql,,excel" yields an empty token. *)
Lemma parse_skills_keeps_empty_token :
  ~ (forall (text : cell) (tok : string),
       tok ∈ parse_skills text -> tok <> EmptyString).
Proof.
  intros H. apply (H (Text "sql,,excel") EmptyString); [|done].
  vm_compute. set_solver.
Qed.

(** C5, amended: [parse_skills] drops no piece.  A text that is not blank
    yields one token for each comma-separated piece (one more than it has
    commas), so all tokens are non-empty exactly when the text is blank or
    none of its pieces is blank. *)
Theorem parse_skills_tokens (text : string) :
  length (parse_skills (Text text)) =
    (if decide (Py.strip text = EmptyString) then 0
     else S (Py.count_char "," text))
  /\ ((forall tok, tok ∈ parse_skills (Text text) -> tok <> EmptyString)
      <-> (Py.strip text = EmptyString
           \/ forall p, p ∈ Py.split "," text -> Py.strip p <> EmptyString)).
Proof.
  unfold parse_skills.
  destruct (Py.strip text) as [|c r] eqn:Hs.
  - rewrite decide_True by done. split; [done|].
    split; [auto | intros _ tok Hin; by apply elem_of_nil in Hin].
  - rewrite decide_False by done. split.
    + by rewrite length_map, split_length.
    + split.
      * intros H. right. intros p Hp Hblank.
        apply (H (Py.lower (Py.strip p))).
        -- apply list_elem_of_fmap. eauto.
        -- by rewrite Hblank.
      * intros [?|H] tok Hin; [done|].
        apply list_elem_of_fmap in Hin as (p & -> & Hp).
        rewrite lower_empty. by apply H.
Qed.

(** ** Gap analysis *)

Example find_missing_skills_scenario :
  find_missing_skills jobs_scenario "data analyst" "SQL, Power BI"
  = Ok (Gap (Text "Data Analyst") ["sql"; "excel"; "python"]
            ["sql"] ["excel"; "python"]).
Proof. reflexivity. Qed.

(** The rows the lookup chooses from: the exact matches, or, when there is
    none, the rows in which the pattern is found. *)
Lemma find_missing_skills_rows `{Regex} df target current :
  find_missing_skills df target current =
    rows ← (if Py.is_empty (exact_match df target)
            then partial_match df target else Ok (exact_match df target));
    Ok (gap_of current (head rows)).
Proof.
  unfold find_missing_skills.
  destruct (if Py.is_empty _ then _ else _) as [[|row rows]|e]; reflexivity.
Qed.

Lemma find_missing_skills_gap `{Regex} df target current title required
    matched missing :
  find_missing_skills df target current
    = Ok (Gap title required matched missing) ->
  exists row, row ∈ df /\ title = job_title row
    /\ required = parse_skills (skill_requirements row)
    /\ matched = filter (fun s => s ∈ parse_skills (Text current)) required
    /\ missing = filter (fun s => s ∉ parse_skills (Text current)) required.
Proof.
  rewrite find_missing_skills_rows.
  destruct (if Py.is_empty _ then _ else _) as [[|row rows]|e] eqn:Hrows;
    simpl; intros Heq; try discriminate.
  injection Heq as <- <- <- <-. exists row. split; [|done].
  assert (row :: rows ⊆ df) as Hsub; [|apply Hsub; left].
  destruct (Py.is_empty (exact_match df target)).
  - unfold partial_match in Hrows.
    destruct (str_contains _) as [found|e]; simpl in Hrows; [|done].
    injection Hrows as <-. intros r Hr. by apply list_elem_of_filter in Hr as [_ ?].
  - injection Hrows as <-. intros r Hr. by apply list_elem_of_filter in Hr as [_ ?].
Qed.

(** C1: on a resolved job, [matched] and [missing] are the required skills
    that are, respectively are not, among the parsed user skills; every
    required skill is in exactly one of them, their union is the set of
    required skills, and both keep the order of [required] (together they
    are a rearrangement of it). *)
Theorem find_missing_skills_partition `{Regex} (df : list JobRow)
    (target current : string) title required matched missing :
  find_missing_skills df target current
    = Ok (Gap title required matched missing) ->
  matched = filter (fun s => s ∈ parse_skills (Text current)) required
  /\ missing = filter (fun s => s ∉ parse_skills (Text current)) required
  /\ (forall s, s ∈ required <-> s ∈ matched \/ s ∈ missing)
  /\ (forall s, ~ (s ∈ matched /\ s ∈ missing))
  /\ matched `sublist_of` required
  /\ missing `sublist_of` required
  /\ matched ++ missing ≡ₚ required.
Proof.
  intros Hgap.
  apply find_missing_skills_gap in Hgap as (row & _ & _ & _ & -> & ->).
  set (user := parse_skills (Text current)).
  split_and!; try done.
  - intros s. rewrite !list_elem_of_filter.
    destruct (decide (s ∈ user)); tauto.
  - intros s. rewrite !list_elem_of_filter. tauto.
  - apply sublist_filter.
  - apply sublist_filter.
  - apply (filter_app_complement (fun s => s ∈ user)).
Qed.

Lemma find_missing_skills_partition_witness :
  find_missing_skills jobs_scenario "data analyst" "SQL, Power BI"
    = Ok (Gap (Text "Data Analyst") ["sql"; "excel"; "python"]
              ["sql"] ["excel"; "python"])
  /\ ["sql"] `sublist_of` ["sql"; "excel"; "python"]
  /\ ["excel"; "python"] `sublist_of` ["sql"; "excel"; "python"]
  /\ ["sql"] ++ ["excel"; "python"] ≡ₚ ["sql"; "excel"; "python"].
Proof.
  split; [reflexivity|].
  destruct (find_missing_skills_partition jobs_scenario "data analyst"
              "SQL, Power BI" (Text "Data Analyst")
              ["sql"; "excel"; "python"] ["sql"] ["excel"; "python"]
              eq_refl) as (_ & _ & _ & _ & Hmatched & Hmissing & Hperm).
  split_and!; assumption.
Defined.

(** *** Job lookup *)

Lemma head_filter_find {A} (P : A -> Prop) `{!forall x, Decision (P x)}
    (f : A -> bool) (l : list A) :
  (forall x, f x = true <-> P x) -> head (filter P l) = find f l.
Proof.
  intros Hf. induction l as [|x l IH]; [done|].
  rewrite filter_cons. simpl. destruct (decide (P x)) as [HP|HP].
  - apply Hf in HP. by rewrite HP.
  - destruct (f x) eqn:Hfx; [|done]. by apply Hf in Hfx.
Qed.

Lemma exact_match_find df target :
  head (exact_match df target) = find (title_equals target) df.
Proof.
  apply head_filter_find. intros r. unfold title_equals, str_lower.
  destruct (job_title r) as [t|]; [|done].
  rewrite bool_decide_eq_true. split; congruence.
Qed.

Lemma partial_match_literal `{RegexLiteral} df target :
  re_literal (Py.lower target) ->
  exists rows, partial_match df target = Ok rows
               /\ head rows = find (title_contains target) df.
Proof.
  intros Hlit. apply re_compile_literal in Hlit as (search & Hc & Hsearch).
  unfold partial_match, str_contains. rewrite Hc. simpl.
  eexists; split; [done|].
  apply head_filter_find. intros r. unfold title_contains, str_lower.
  destruct (job_title r) as [t|]; [|done]. by rewrite Hsearch.
Qed.

(** For a target without special characters the lookup is the one the
    specification words: exact match first, substring match only when no
    title matches exactly, the first row in file order at either step. *)
Lemma find_missing_skills_literal `{RegexLiteral} df target current :
  re_literal (Py.lower target) ->
  find_missing_skills df target current
  = Ok (gap_of current (resolve_job df target)).
Proof.
  intros Hlit. rewrite find_missing_skills_rows. unfold resolve_job.
  rewrite <-exact_match_find.
  destruct (exact_match df target) as [|row rows] eqn:Hex; simpl; [|done].
  destruct (partial_match_literal df target Hlit) as (rows & -> & <-).
  done.
Qed.

Global Instance dot_regex_literal : RegexLiteral.
Proof.
  intros pat Hlit. exists (dot_search pat). split.
  - simpl. replace (dot_pattern pat) with true; [done|].
    induction pat as [|c pat IH]; simpl in *; [done|].
    apply andb_prop_elim in Hlit as [Hc Hlit].
    rewrite <-IH by done. destruct (re_special c); [done|].
    by rewrite orb_true_r.
  - assert (forall s, dot_match pat s = String.prefix pat s) as Hm.
    { induction pat as [|c pat IH]; intros [|d s]; simpl in *; try done.
      apply andb_prop_elim in Hlit as [Hc Hlit]. rewrite IH by done.
      destruct (Ascii.eqb_spec c ".") as [->|_]; [done|].
      destruct (Ascii.eqb_spec c d) as [->|Hne].
      - by destruct (ascii_dec d d).
      - by destruct (ascii_dec c d). }
    intros s. induction s as [|d s IH]; simpl; rewrite Hm; [done|].
    by rewrite IH.
Qed.

(** C2.  The fallback step hands the lower-cased target to
    [Series.str.contains], which reads it as a regular expression.  For the
    target ".net" no title matches exactly; the first row whose title
    contains ".net" is ".NET Developer", but the pattern is found in
    "internet marketer" and the lookup chooses that row. *)
Theorem find_missing_skills_dot_net :
  exact_match jobs_net ".net" = []
  /\ resolve_job jobs_net ".net"
     = Some {| job_title := Text ".NET Developer";
               skill_requirements := Text "c#, sql" |}
  /\ title_contains ".net"
       {| job_title := Text "Internet Marketer";
          skill_requirements := Text "seo, content" |} = false
  /\ find_missing_skills jobs_net ".net" "sql"
     = Ok (Gap (Text "Internet Marketer") ["seo"; "content"] []
               ["seo"; "content"]).
Proof. split_and!; reflexivity. Qed.

(** ** The numbers satisfy the order laws *)

Lemma qrank_nlt (x y : qnan) :
  nlt x y <->
  exists s a t b, qrank x = Some (s, a) /\ qrank y = Some (t, b)
    /\ ((s < t)%Z \/ (s = t /\ (a < b)%Q)).
Proof.
  simpl. unfold qlt. split.
  - destruct (qrank x) as [[s a]|], (qrank y) as [[t b]|]; try done.
    intros Hlt. exists s, a, t, b. split_and!; [done..|].
    apply orb_True in Hlt as [Hlt|[Hs Hab]%andb_True].
    + left. by apply Z.ltb_lt, Is_true_true.
    + right. apply Is_true_true, Z.eqb_eq in Hs.
      apply negb_True in Hab. rewrite Is_true_true, Qle_bool_iff in Hab.
      split; [done|lra].
  - intros (s & a & t & b & -> & -> & Hlt). apply orb_True.
    destruct Hlt as [Hlt|[-> Hab]].
    + left. by apply Is_true_true, Z.ltb_lt.
    + right. rewrite Z.eqb_refl. apply negb_True.
      rewrite Is_true_true, Qle_bool_iff. lra.
Qed.

Lemma qrank_neq (x y : qnan) :
  neq x y <->
  exists s a t b, qrank x = Some (s, a) /\ qrank y = Some (t, b)
    /\ s = t /\ (a == b)%Q.
Proof.
  simpl. unfold qeq. split.
  - destruct (qrank x) as [[s a]|], (qrank y) as [[t b]|]; try done.
    intros [Hs Hab]%andb_True. exists s, a, t, b. split_and!; [done..| |].
    + by apply Z.eqb_eq, Is_true_true.
    + by apply Qeq_bool_iff, Is_true_true.
  - intros (s & a & t & b & -> & -> & -> & Hab). rewrite Z.eqb_refl.
    by apply Is_true_true, Qeq_bool_iff.
Qed.

Lemma qrank_nle (x y : qnan) :
  nle x y <->
  exists s a t b, qrank x = Some (s, a) /\ qrank y = Some (t, b)
    /\ ((s < t)%Z \/ (s = t /\ (a <= b)%Q)).
Proof.
  unfold nle. rewrite orb_True, qrank_nlt, qrank_neq. split.
  - intros [(s & a & t & b & Hx & Hy & Hlt)|(s & a & t & b & Hx & Hy & Hs & Hab)];
      exists s, a, t, b; (split_and!; [done..|]).
    + destruct Hlt as [?|[? ?]]; [by left|right; split; [done|lra]].
    + right. split; [done|lra].
  - intros (s & a & t & b & Hx & Hy & [Hlt|[Hs Hab]]).
    + left. exists s, a, t, b. split_and!; [done..|by left].
    + destruct (Qlt_le_dec a b) as [Hab'|Hab'].
      * left. exists s, a, t, b. split_and!; [done..|by right].
      * right. exists s, a, t, b. split_and!; [done..|lra].
Qed.

Lemma Q_nle (a b : Q) : nle (Qnum a) (Qnum b) <-> (a <= b)%Q.
Proof.
  rewrite qrank_nle. simpl. split.
  - intros (s & a' & t & b' & [= <- <-] & [= <- <-] & [?|[_ ?]]); [lia|done].
  - intros Hab. exists 0%Z, a, 0%Z, b. split_and!; [done..|by right].
Qed.

Lemma Q_nlt (a b : Q) : nlt (Qnum a) (Qnum b) <-> (a < b)%Q.
Proof.
  rewrite qrank_nlt. simpl. split.
  - intros (s & a' & t & b' & [= <- <-] & [= <- <-] & [?|[_ ?]]); [lia|done].
  - intros Hab. exists 0%Z, a, 0%Z, b. split_and!; [done..|by right].
Qed.

Lemma Q_is_number (x : qnan) : is_number x <-> is_Some (qrank x).
Proof.
  unfold is_number. rewrite qrank_neq. split.
  - intros (s & a & _ & _ & -> & _). by eexists.
  - intros [[s a] Hx]. exists s, a, s, a. split_and!; [done..|lra].
Qed.

Global Instance Q_order : NumberOrder.
Proof.
  split.
  - intros x y (s & a & t & b & Hx & Hy & _)%qrank_nle.
    rewrite !Q_is_number, Hx, Hy. by split.
  - intros x y z (s & a & t & b & Hx & Hy & Hxy)%qrank_nle
                 (t' & b' & u & c & Hy' & Hz & Hyz)%qrank_nle.
    rewrite Hy in Hy'. injection Hy' as <- <-.
    apply qrank_nle. exists s, a, u, c. split_and!; [done..|].
    destruct Hxy as [?|[-> ?]], Hyz as [?|[-> ?]];
      [left; lia|left; lia|left; lia|right; split; [done|lra]].
  - intros x y [[s a] Hx]%Q_is_number [[t b] Hy]%Q_is_number.
    apply eq_true_iff_eq.
    rewrite negb_true_iff, <-not_true_iff_false, <-!Is_true_true.
    rewrite qrank_nlt, qrank_nle. split.
    + intros (s' & a' & t' & b' & Hx' & Hy' & Hlt)
             (t'' & b'' & s'' & a'' & Hy'' & Hx'' & Hle).
      rewrite Hx in Hx', Hx''. rewrite Hy in Hy', Hy''.
      injection Hx' as <- <-. injection Hx'' as <- <-.
      injection Hy' as <- <-. injection Hy'' as <- <-.
      destruct Hlt as [?|[? ?]], Hle as [?|[? ?]]; try lia. lra.
    + intros Hnle. exists s, a, t, b. split_and!; [done..|].
      destruct (Z.lt_trichotomy s t) as [?|[->|?]]; [by left| |].
      * destruct (Qlt_le_dec a b) as [?|?]; [by right|].
        destruct Hnle. exists t, b, t, a. split_and!; [done..|by right].
      * destruct Hnle. exists t, b, s, a. split_and!; [done..|by left].
  - intros x y. apply eq_true_iff_eq.
    rewrite andb_true_iff, <-!Is_true_true.
    rewrite qrank_neq, !qrank_nle. split.
    + intros (s & a & t & b & Hx & Hy & -> & Hab).
      split; [exists t, a, t, b|exists t, b, t, a];
        (split_and!; [done..|right; split; [done|lra]]).
    + intros [(s & a & t & b & Hx & Hy & Hxy)
              (t' & b' & s' & a' & Hy' & Hx' & Hyx)].
      rewrite Hx in Hx'. rewrite Hy in Hy'.
      injection Hx' as <- <-. injection Hy' as <- <-.
      exists s, a, t, b. split_and!; [done..| |].
      * destruct Hxy as [?|[? ?]], Hyx as [?|[? ?]]; lia.
      * destruct Hxy as [?|[? ?]], Hyx as [?|[? ?]]; try lia. lra.
Qed.

Lemma Qmake10_le (a b : Z) : (a <= b)%Z -> (a # 10 <= b # 10)%Q.
Proof. intros Hab. unfold Qle; simpl. lia. Qed.

Lemma Qround1_bounds (q : Q) :
  (Qfloor (q * 10) # 10 <= Qround1 q)%Q
  /\ (Qround1 q <= (Qfloor (q * 10) + 1) # 10)%Q.
Proof.
  unfold Qround1.
  destruct (_ ?= _)%Q; [destruct (Z.even _)|..];
    split; apply Qmake10_le; lia.
Qed.

Lemma Qround1_mono (x y : Q) : (x <= y)%Q -> (Qround1 x <= Qround1 y)%Q.
Proof.
  intros Hxy.
  assert (Qfloor (x * 10) <= Qfloor (y * 10))%Z as Hf
    by (apply Qfloor_resp_le; lra).
  destruct (Z.eq_dec (Qfloor (x * 10)) (Qfloor (y * 10))) as [Heq|Hne].
  - unfold Qround1. rewrite <-Heq.
    set (f := Qfloor (x * 10)).
    destruct (x * 10 - inject_Z f ?= 1 # 2)%Q eqn:Hx;
      destruct (y * 10 - inject_Z f ?= 1 # 2)%Q eqn:Hy;
      try (destruct (Z.even f)); try (apply Qmake10_le; lia);
      first [apply Qeq_alt in Hx | apply Qlt_alt in Hx | apply Qgt_alt in Hx];
      first [apply Qeq_alt in Hy | apply Qlt_alt in Hy | apply Qgt_alt in Hy];
      exfalso; lra.
  - destruct (Qround1_bounds x) as [_ Hx], (Qround1_bounds y) as [Hy _].
    apply (Qle_trans _ _ _ Hx). refine (Qle_trans _ _ _ _ Hy).
    apply Qmake10_le. lia.
Qed.

(** ** Dicts *)

Section dict.
Context {V : Type}.
Implicit Types (d : list (string * V)) (k : string) (v : V).

Lemma dict_get_set k v d : Py.dict_get k (Py.dict_set k v d) = Some v.
Proof.
  induction d as [|[k' v'] d IH]; simpl.
  - by rewrite decide_True.
  - destruct (decide (k = k')) as [->|Hne]; simpl.
    + by rewrite decide_True.
    + by rewrite decide_False.
Qed.

Lemma dict_get_set_ne k k' v d :
  k <> k' -> Py.dict_get k (Py.dict_set k' v d) = Py.dict_get k d.
Proof.
  intros Hne. induction d as [|[k2 v2] d IH]; simpl.
  - by rewrite decide_False.
  - destruct (decide (k' = k2)) as [->|Hne2]; simpl.
    + by rewrite !decide_False.
    + destruct (decide (k = k2)); done.
Qed.

Lemma dict_set_same k v d : Py.dict_get k d = Some v -> Py.dict_set k v d = d.
Proof.
  induction d as [|[k' v'] d IH]; simpl; [done|].
  destruct (decide (k = k')) as [->|Hne]; [congruence|].
  intros Hget. by rewrite IH.
Qed.

Lemma dict_set_keys k v d :
  (Py.dict_set k v d).*1 = if decide (k ∈ d.*1) then d.*1 else d.*1 ++ [k].
Proof.
  induction d as [|[k' v'] d IH]; [done|].
  cbn [Py.dict_set]. rewrite fmap_cons. cbn [fst].
  destruct (decide (k = k')) as [->|Hne].
  - rewrite decide_True; [done|left].
  - rewrite fmap_cons, IH. cbn [fst].
    destruct (decide (k ∈ d.*1)) as [Hin|Hnin].
    + rewrite decide_True; [done|by right].
    + rewrite decide_False; [done|].
      intros Hin. apply elem_of_cons in Hin as [?|?]; done.
Qed.

Lemma dict_set_NoDup k v d : NoDup d.*1 -> NoDup (Py.dict_set k v d).*1.
Proof.
  intros Hd. rewrite dict_set_keys. destruct (decide (k ∈ d.*1)); [done|].
  apply NoDup_app. split_and!; [done| |apply NoDup_singleton].
  intros x Hx Hk. apply list_elem_of_singleton in Hk as ->. done.
Qed.

Lemma dict_get_keys k d : is_Some (Py.dict_get k d) <-> k ∈ d.*1.
Proof.
  induction d as [|[k' v'] d IH]; simpl.
  - split; [by intros [? ?] | by intros ?%elem_of_nil].
  - destruct (decide (k = k')) as [->|Hne].
    + split; [left | by eexists].
    + rewrite IH. split; [by right|].
      intros Hin. apply elem_of_cons in Hin as [?|?]; done.
Qed.
End dict.

(** ** Duration estimate *)

Lemma duration_entry_row `{Number} (df : list SkillTimeRow) skill hours :
  duration_entry df skill = Some hours ->
  exists r, r ∈ df /\ estimated_hours r = hours.
Proof.
  induction df as [|r df IH]; simpl; [done|].
  assert (duration_entry df skill = Some hours ->
          exists r', r' ∈ r :: df /\ estimated_hours r' = hours) as Hrest.
  { intros (r' & Hin & Hr')%IH. exists r'. split; [by right|done]. }
  destruct (skill_name r) as [name|]; [|done].
  destruct (decide _); [|done].
  intros [= <-]. exists r. split; [left|done].
Qed.

Section duration.
Context `{Number}.
Implicit Types (df : list SkillTimeRow) (skill : string) (total : num)
  (d : list (string * option num)).

(** The first row the mask selects is the entry of the skill. *)
Lemma duration_rows_entry df skill :
  estimated_hours <$> head (duration_rows df skill) = duration_entry df skill.
Proof.
  unfold duration_rows. induction df as [|r df IH]; [done|].
  rewrite filter_cons. simpl. unfold str_lower at 1.
  destruct (skill_name r) as [name|].
  - destruct (decide (Py.lower name = Py.lower skill)) as [Heq|Hne];
      destruct (decide (Text _ = Text _)) as [Heq'|Hne']; try done;
      congruence.
  - by destruct (decide (NaN = Text _)).
Qed.

Lemma duration_step_entry df total d skill :
  duration_step df (total, d) skill =
    (match duration_entry df skill with
     | Some hours => nadd total hours
     | None => total
     end,
     Py.dict_set skill (duration_entry df skill) d).
Proof.
  rewrite <-duration_rows_entry. unfold duration_step.
  by destruct (duration_rows df skill).
Qed.

Lemma duration_loop_snoc df missing skill :
  duration_loop df (missing ++ [skill]) =
    duration_step df (duration_loop df missing) skill.
Proof. unfold duration_loop. by rewrite fold_left_app. Qed.

(** The running total is the sum, in list order, of the entries found. *)
Lemma fold_duration_total df missing total d :
  (fold_left (duration_step df) missing (total, d)).1
  = fold_left nadd (known_hours df missing) total.
Proof.
  revert total d. induction missing as [|skill missing IH]; intros; [done|].
  cbn [fold_left]. rewrite duration_step_entry, IH. unfold known_hours.
  cbn [omap list_omap]. by destruct (duration_entry df skill).
Qed.

Lemma duration_loop_total df missing :
  (duration_loop df missing).1 = sum_hours (known_hours df missing).
Proof. apply fold_duration_total. Qed.

(** The dict holds the entry of every skill of the list, and no other
    key. *)
Lemma duration_loop_get df missing skill :
  Py.dict_get skill (duration_loop df missing).2 =
    if decide (skill ∈ missing) then Some (duration_entry df skill) else None.
Proof.
  induction missing as [|s missing IH] using rev_ind.
  - rewrite decide_False; [done|apply not_elem_of_nil].
  - rewrite duration_loop_snoc.
    destruct (duration_loop df missing) as [total d].
    rewrite duration_step_entry. cbn [snd] in *.
    destruct (decide (skill = s)) as [->|Hne].
    + rewrite dict_get_set, decide_True; [done|].
      apply elem_of_app. right. left.
    + rewrite dict_get_set_ne, IH by done.
      destruct (decide (skill ∈ missing)) as [Hin|Hnin].
      * rewrite decide_True; [done|]. apply elem_of_app. by left.
      * rewrite decide_False; [done|].
        intros [?|Hs%list_elem_of_singleton]%elem_of_app; done.
Qed.

Lemma duration_loop_NoDup df missing :
  NoDup (duration_loop df missing).2.*1.
Proof.
  induction missing as [|s missing IH] using rev_ind.
  - apply NoDup_nil_2.
  - rewrite duration_loop_snoc.
    destruct (duration_loop df missing) as [total d].
    rewrite duration_step_entry. by apply dict_set_NoDup.
Qed.

Lemma calculate_total_duration_eq df missing hours_per_day :
  calculate_total_duration df missing hours_per_day =
    (nround1 (if ngt hours_per_day nzero
              then ndiv (duration_loop df missing).1 hours_per_day
              else (duration_loop df missing).1),
     (duration_loop df missing).2).
Proof.
  unfold calculate_total_duration. by destruct (duration_loop df missing).
Qed.

Lemma nle_refl (x : num) : is_number x -> nle x x.
Proof.
  unfold nle, is_number. intros Hx. rewrite orb_True. by right.
Qed.


Lemma nlt_nle_weak `{!NumberOrder} (x y : num) : nlt x y -> nle x y.
Proof. unfold nle. intros Hlt. rewrite orb_True. by left. Qed.

End duration.

Example calculate_total_duration_scenario :
  calculate_total_duration durations_scenario ["excel"; "python"] (Qnum 2)
  = ((Qnum (25 # 10)), [("excel", Some (Qnum 5)); ("python", None)]).
Proof. reflexivity. Qed.



(** *** Totals that stay in range *)

Lemma wrap64_small (z : Z) : (0 <= z < 2 ^ 63)%Z -> wrap64 z = z.
Proof. unfold wrap64. intros Hz. rewrite Z.mod_small; lia. Qed.

Lemma nonneg_finite_int_part (x : qnan) :
  nonneg_finite x -> (0 <= int_part x)%Z.
Proof.
  destruct x as [z|q|s|]; simpl; try done.
  unfold nonneg_finite. simpl. intros Hz. by rewrite Zle_Qle.
Qed.

Lemma int_total_nonneg (hs : list qnan) :
  Forall nonneg_finite hs -> (0 <= int_total hs)%Z.
Proof.
  induction 1 as [|h hs Hh%nonneg_finite_int_part _ IH]; simpl; lia.
Qed.

Lemma int_total_app (hs hs' : list qnan) :
  int_total (hs ++ hs') = (int_total hs + int_total hs')%Z.
Proof. induction hs as [|h hs IH]; simpl; lia. Qed.

(** An addition that does not wrap around is the addition of the values. *)
Lemma nadd_in_range (x h : qnan) :
  nonneg_finite x -> nonneg_finite h ->
  (int_part x + int_part h < 2 ^ 63)%Z ->
  exists a b c,
    qfinite x = Some a /\ qfinite h = Some b /\ qfinite (nadd x h) = Some c
    /\ (0 <= a)%Q /\ (0 <= b)%Q /\ (c == a + b)%Q
    /\ (int_part (nadd x h) <= int_part x + int_part h)%Z.
Proof.
  intros Hx Hh Hrange.
  pose proof (nonneg_finite_int_part x Hx) as Hx'.
  pose proof (nonneg_finite_int_part h Hh) as Hh'.
  destruct x as [a|a|s|], h as [b|b|t|]; try done;
    unfold nonneg_finite in Hx, Hh; simpl in *.
  - exists (inject_Z a), (inject_Z b), (inject_Z (a + b)).
    rewrite wrap64_small by lia.
    split_and!; [done..|rewrite inject_Z_plus; lra|lia].
  - exists (inject_Z a), b, (inject_Z a + b)%Q.
    split_and!; [done..|lra|lia].
  - exists a, (inject_Z b), (a + inject_Z b)%Q.
    split_and!; [done..|lra|lia].
  - exists a, b, (a + b)%Q. split_and!; [done..|lra|lia].
Qed.

Lemma nadd_nonneg_finite (x h : qnan) :
  nonneg_finite x -> nonneg_finite h ->
  (int_part x + int_part h < 2 ^ 63)%Z ->
  nonneg_finite (nadd x h).
Proof.
  intros Hx Hh Hrange.
  destruct (nadd_in_range x h Hx Hh Hrange)
    as (a & b & c & _ & _ & Hc & Ha & Hb & Hsum & _).
  unfold nonneg_finite. rewrite Hc. lra.
Qed.

(** A sum of non-negative hours whose integers stay below 2^63 is a
    non-negative finite number. *)
Lemma fold_nadd_in_range (hs : list qnan) (x : qnan) :
  nonneg_finite x -> Forall nonneg_finite hs ->
  (int_part x + int_total hs < 2 ^ 63)%Z ->
  nonneg_finite (fold_left nadd hs x)
  /\ (int_part (fold_left nadd hs x) <= int_part x + int_total hs)%Z.
Proof.
  intros Hx Hhs. revert x Hx.
  induction Hhs as [|h hs Hh Hhs IH]; intros x Hx Hrange; cbn [fold_left].
  - change (int_total []) with 0%Z in *. split; [done|lia].
  - change (int_total (h :: hs)) with (int_part h + int_total hs)%Z in *.
    pose proof (int_total_nonneg hs Hhs) as Hnonneg.
    destruct (nadd_in_range x h Hx Hh)
      as (_ & _ & _ & _ & _ & _ & _ & _ & _ & Hint); [lia|].
    change (@nadd Q_number x h) with (qadd x h) in *.
    destruct (IH (qadd x h)) as [Hfin Hle];
      [apply nadd_nonneg_finite; [done..|lia]|lia|].
    split; [done|lia].
Qed.

Lemma sum_hours_in_range (hs : list qnan) :
  Forall nonneg_finite hs -> (int_total hs < 2 ^ 63)%Z ->
  nonneg_finite (sum_hours hs)
  /\ (int_part (sum_hours hs) <= int_total hs)%Z.
Proof.
  intros Hhs Hrange.
  apply (fold_nadd_in_range hs (Qint 0)); [by compute|done|by rewrite Z.add_0_l].
Qed.

Lemma known_hours_nonneg (df : list SkillTimeRow) (skills : list string) :
  Forall (fun r => nonneg_finite (estimated_hours r)) df ->
  Forall nonneg_finite (known_hours df skills).
Proof.
  intros Hdf. apply Forall_forall. intros hours Hin.
  apply list_elem_of_omap in Hin as (skill & _ & Hentry).
  destruct (duration_entry_row df skill hours Hentry) as (r & Hr & <-).
  by apply (proj1 (Forall_forall _ _) Hdf).
Qed.

Lemma positive_finite_gt (x : qnan) : positive_finite x -> ngt x nzero.
Proof.
  unfold positive_finite, ngt. intros Hx. apply qrank_nlt.
  destruct x as [z|q|s|]; simpl in *; try done.
  - exists 0%Z, (inject_Z 0), 0%Z, (inject_Z z). split_and!; [done..|by right].
  - exists 0%Z, (inject_Z 0), 0%Z, q. split_and!; [done..|by right].
Qed.

(** Dividing by a positive finite number and rounding keep the order of the
    values. *)
Lemma ndiv_round_in_range (x y d : qnan) (a b : Q) :
  qfinite x = Some a -> qfinite y = Some b -> (a <= b)%Q ->
  positive_finite d ->
  nle (nround1 (ndiv x d)) (nround1 (ndiv y d)).
Proof.
  unfold positive_finite. intros Hx Hy Hab Hd. simpl. unfold qdiv.
  rewrite Hx, Hy. destruct (qfinite d) as [h|]; [|done].
  destruct (Qeq_bool h 0) eqn:Hzero.
  { apply Qeq_bool_iff in Hzero. lra. }
  apply (Q_nle (Qround1 (a / h)) (Qround1 (b / h))), Qround1_mono.
  unfold Qdiv. apply Qmult_le_compat_r; [done|].
  by apply Qlt_le_weak, Qinv_lt_0_compat.
Qed.

Example total_days_overflow :
  (calculate_total_duration durations_overflow ["thesis"] (Qnum 2)).1
    = Qnum (46116860184273879035 # 10)
  /\ (calculate_total_duration durations_overflow ["thesis"; "abstract"]
        (Qnum 2)).1
    = Qnum (-46116860184273879040 # 10).
Proof. split; reflexivity. Qed.

(** C8, as stated, fails where the hours are integers whose sum leaves the
    range of [int64]: with 2^63 - 1 hours for one skill and 1 hour for
    another the total of the two wraps around to -2^63, and [totalDays]
    goes from 4611686018427387903.5 to -4611686018427387904 when the second
    skill is appended. *)
Lemma total_days_decrease_on_overflow :
  ~ (forall (df : list SkillTimeRow) (missing : list string) (skill : string)
            (hours_per_day : num),
       Forall (fun r => nle nzero (estimated_hours r)) df ->
       ngt hours_per_day nzero ->
       nle (calculate_total_duration df missing hours_per_day).1
           (calculate_total_duration df (missing ++ [skill]) hours_per_day).1
       /\ (duration_entry df skill = None ->
           (calculate_total_duration df (missing ++ [skill]) hours_per_day).1
           = (calculate_total_duration df missing hours_per_day).1)).
Proof.
  intros Hclaim.
  destruct (Hclaim durations_overflow ["thesis"] "abstract" (Qnum 2))
    as [Hle _]; [by repeat constructor|done|].
  exact Hle.
Qed.

(** C8, amended: with hours in the duration table that are finite and not
    negative, a finite [hoursPerDay > 0], and integer hours of the listed
    skills (the appended one included) that add up to less than 2^63, a
    skill appended to the missing skills never decreases [totalDays]; a
    skill without an entry leaves it unchanged. *)
Theorem total_days_monotone (df : list SkillTimeRow) (missing : list string)
    (skill : string) (hours_per_day : num) :
  Forall (fun r => nonneg_finite (estimated_hours r)) df ->
  positive_finite hours_per_day ->
  (int_total (known_hours df (missing ++ [skill])) < 2 ^ 63)%Z ->
  nle (calculate_total_duration df missing hours_per_day).1
      (calculate_total_duration df (missing ++ [skill]) hours_per_day).1
  /\ (duration_entry df skill = None ->
      (calculate_total_duration df (missing ++ [skill]) hours_per_day).1
      = (calculate_total_duration df missing hours_per_day).1).
Proof.
  intros Hnonneg Hpos Hrange.
  pose proof (known_hours_nonneg df missing Hnonneg) as Hknown.
  pose proof (known_hours_nonneg df [skill] Hnonneg) as Hskill.
  unfold known_hours in Hrange. rewrite omap_app, int_total_app in Hrange.
  fold (known_hours df missing) in Hrange.
  fold (known_hours df [skill]) in Hrange.
  pose proof (int_total_nonneg _ Hskill) as Hskill'.
  destruct (sum_hours_in_range (known_hours df missing))
    as [Htotal Hint]; [done|lia|].
  rewrite !calculate_total_duration_eq, duration_loop_snoc.
  rewrite <-duration_loop_total in Htotal, Hint.
  destruct (duration_loop df missing) as [total d].
  rewrite duration_step_entry. cbn [fst] in *.
  rewrite (Is_true_true_1 _ (positive_finite_gt _ Hpos)).
  assert (known_hours df [skill] = option_list (duration_entry df skill))
    as Hone.
  { unfold known_hours. cbn [omap list_omap].
    by destruct (duration_entry df skill). }
  rewrite Hone in Hskill, Hrange.
  destruct (duration_entry df skill) as [hours|] eqn:Hentry.
  - split; [|done].
    apply Forall_cons in Hskill as [Hhours _].
    change (int_total (option_list (Some hours)))
      with (int_part hours + 0)%Z in Hrange.
    destruct (nadd_in_range total hours Htotal Hhours)
      as (a & b & c & Ha & _ & Hc & _ & Hb & Hsum & _); [lia|].
    apply (ndiv_round_in_range _ _ _ a c); [done..|lra|done].
  - split; [|done].
    unfold nonneg_finite in Htotal.
    destruct (qfinite total) as [a|] eqn:Ha; [|done].
    apply (ndiv_round_in_range _ _ _ a a); [done..|lra|done].
Qed.

Lemma total_days_monotone_witness :
  nle (calculate_total_duration durations_int ["excel"] (Qnum 2)).1
      (calculate_total_duration durations_int (["excel"] ++ ["sql"])
         (Qnum 2)).1.
Proof.
  apply (total_days_monotone durations_int ["excel"] "sql" (Qnum 2)).
  - repeat constructor; done.
  - reflexivity.
  - reflexivity.
Defined.

(** C10: [calculate_total_duration] adds the hours of a skill with an
    entry to the total at every occurrence of the skill in the list, while
    the dict it returns has one entry for each name.  With [T] the total
    of a list, [totalDays] of the list is computed from [T] and, after a
    further occurrence of a skill with [hours], from [T + hours]; the
    returned dict has no key twice and maps the skill to its hours, and
    when the skill was in the list already it is the dict returned for the
    list.  With the skill "sql" (10 hours) listed twice the total is 20,
    [totalDays] at 2 hours a day is 10.0, and the values of the returned
    dict sum to 10. *)
Theorem duplicate_skill_counted_per_occurrence :
  (forall (N : Number) (df : list SkillTimeRow) (missing : list string)
          (skill : string) (hours hours_per_day : num),
     duration_entry df skill = Some hours ->
     (calculate_total_duration df missing hours_per_day).1
       = nround1 (if ngt hours_per_day nzero
                  then ndiv (sum_hours (known_hours df missing)) hours_per_day
                  else sum_hours (known_hours df missing))
     /\ (calculate_total_duration df (missing ++ [skill]) hours_per_day).1
       = nround1 (if ngt hours_per_day nzero
                  then ndiv (nadd (sum_hours (known_hours df missing)) hours)
                            hours_per_day
                  else nadd (sum_hours (known_hours df missing)) hours)
     /\ NoDup
          (calculate_total_duration df (missing ++ [skill]) hours_per_day).2.*1
     /\ Py.dict_get skill
          (calculate_total_duration df (missing ++ [skill]) hours_per_day).2
        = Some (Some hours)
     /\ (skill ∈ missing ->
         (calculate_total_duration df (missing ++ [skill]) hours_per_day).2
         = (calculate_total_duration df missing hours_per_day).2))
  /\ sum_hours (known_hours durations_scenario ["sql"; "sql"]) = Qnum 20
  /\ calculate_total_duration durations_scenario ["sql"; "sql"] (Qnum 2)
     = (Qnum (100 # 10), [("sql", Some (Qnum 10))])
  /\ sum_hours
       (omap snd (calculate_total_duration durations_scenario ["sql"; "sql"]
                    (Qnum 2)).2)
     = Qnum 10.
Proof.
  split; [|split_and!; reflexivity].
  intros N df missing skill hours hours_per_day Hentry.
  rewrite !calculate_total_duration_eq, duration_loop_snoc.
  pose proof (duration_loop_total df missing) as Htotal.
  pose proof (duration_loop_get df missing skill) as Hget.
  pose proof (duration_loop_NoDup df missing) as Hkeys.
  destruct (duration_loop df missing) as [total d].
  rewrite duration_step_entry, Hentry. cbn [fst snd] in *. subst total.
  split_and!; [done|done| | |].
  - by apply dict_set_NoDup.
  - apply dict_get_set.
  - intros Hin. rewrite decide_True, Hentry in Hget by done.
    by apply dict_set_same.
Qed.

Lemma duplicate_skill_counted_per_occurrence_witness :
  (calculate_total_duration durations_scenario (["sql"] ++ ["sql"])
     (Qnum 2)).1
    = nround1 (if ngt (Qnum 2) nzero
               then ndiv (nadd (sum_hours (known_hours durations_scenario
                                             ["sql"])) (Qnum 10)) (Qnum 2)
               else nadd (sum_hours (known_hours durations_scenario ["sql"]))
                         (Qnum 10))
  /\ (calculate_total_duration durations_scenario (["sql"] ++ ["sql"])
        (Qnum 2)).2
     = (calculate_total_duration durations_scenario ["sql"] (Qnum 2)).2.
Proof.
  destruct duplicate_skill_counted_per_occurrence as [Hall _].
  destruct (Hall Q_number durations_scenario ["sql"] "sql" (Qnum 10) (Qnum 2))
    as (_ & Htotal & _ & _ & Hdict); [reflexivity|].
  split; [exact Htotal|]. apply Hdict. apply elem_of_cons. by left.
Defined.

Example duplicate_skill_total_days :
  calculate_total_duration durations_scenario ["sql"; "sql"] (Qnum 2)
  = ((Qnum (100 # 10)), [("sql", Some (Qnum 10))]).
Proof. reflexivity. Qed.

(** ** Sorting and slicing *)

Section sort.
Context {A : Type} (lt : A -> A -> bool).
Implicit Types (x y : A) (l : list A).

Local Abbreviation not_below := (Py.not_below lt).

Lemma insert_desc_perm x l : Py.insert_desc lt x l ≡ₚ x :: l.
Proof.
  induction l as [|y l IH]; simpl; [done|].
  destruct (lt x y); [|done]. rewrite IH. apply Permutation_swap.
Qed.

Lemma sort_reverse_perm l : Py.sort_reverse lt l ≡ₚ l.
Proof.
  induction l as [|x l IH]; simpl; [done|].
  by rewrite insert_desc_perm, IH.
Qed.

(** Stability: records that tie with one another stay in their order. *)
Lemma insert_desc_filter (P : A -> Prop) `{!forall x, Decision (P x)} x l :
  (forall y, P x -> P y -> lt x y = false) ->
  filter P (Py.insert_desc lt x l) = filter P (x :: l).
Proof.
  intros Htie. induction l as [|y l IH]; simpl; [done|].
  destruct (lt x y) eqn:Hxy; [|done].
  rewrite filter_cons, IH, !filter_cons.
  destruct (decide (P x)) as [Hx|Hx], (decide (P y)) as [Hy|Hy]; try done.
  rewrite Htie in Hxy; done.
Qed.

Lemma sort_reverse_stable (P : A -> Prop) `{!forall x, Decision (P x)} l :
  (forall x y, P x -> P y -> lt x y = false) ->
  filter P (Py.sort_reverse lt l) = filter P l.
Proof.
  intros Htie. induction l as [|x l IH]; simpl; [done|].
  rewrite insert_desc_filter by auto. by rewrite !filter_cons, IH.
Qed.

(** Sortedness, for lists of elements among which [lt] is asymmetric
    and [not_below] transitive. *)
Variable good : A -> Prop.
Hypothesis lt_asym : forall x y,
  good x -> good y -> lt x y = true -> lt y x = false.
Hypothesis not_below_trans : forall x y z,
  good x -> good y -> good z ->
  not_below x y -> not_below y z -> not_below x z.

Lemma insert_desc_sorted x l :
  good x -> Forall good l ->
  StronglySorted not_below l ->
  StronglySorted not_below (Py.insert_desc lt x l).
Proof.
  intros Hx Hgood Hsorted.
  induction Hsorted as [|y l Hl IH Hy]; simpl.
  - repeat constructor.
  - apply Forall_cons in Hgood as [Hgy Hgl].
    destruct (lt x y) eqn:Hxy.
    + constructor; [by apply IH|].
      rewrite Forall_forall. intros z.
      rewrite (insert_desc_perm x l), elem_of_cons. intros [->|Hz].
      * by apply lt_asym.
      * by apply (proj1 (Forall_forall _ _) Hy).
    + constructor; [by constructor|].
      constructor; [done|].
      rewrite Forall_forall. intros z Hz.
      apply (not_below_trans x y z); try done.
      * by apply (proj1 (Forall_forall _ _) Hgl).
      * by apply (proj1 (Forall_forall _ _) Hy).
Qed.

Lemma sort_reverse_sorted l :
  Forall good l -> StronglySorted not_below (Py.sort_reverse lt l).
Proof.
  induction 1 as [|x l Hx Hl IH]; simpl; [constructor|].
  apply insert_desc_sorted; [done| |done].
  by rewrite sort_reverse_perm.
Qed.
End sort.

Lemma slice_to_prefix {A} (limit : Z) (l : list A) :
  Py.slice_to limit l `prefix_of` l.
Proof. unfold Py.slice_to. destruct (limit <? 0)%Z; apply prefix_take. Qed.

Lemma slice_to_length {A} (limit : Z) (l : list A) :
  (0 <= limit)%Z -> (Z.of_nat (length (Py.slice_to limit l)) <= limit)%Z.
Proof.
  intros Hlimit. unfold Py.slice_to.
  destruct (Z.ltb_spec limit 0); [lia|]. rewrite length_take. lia.
Qed.

Lemma prefix_filter {A} (P : A -> Prop) `{!forall x, Decision (P x)}
    (l1 l2 : list A) :
  l1 `prefix_of` l2 -> filter P l1 `prefix_of` filter P l2.
Proof. intros [k ->]. rewrite filter_app. by eexists. Qed.

Lemma prefix_sorted {A} (R : relation A) (l1 l2 : list A) :
  l1 `prefix_of` l2 -> StronglySorted R l2 -> StronglySorted R l1.
Proof. intros [k ->]. apply StronglySorted_app_1_l. Qed.

Lemma sorted_weaken {A} (good : A -> Prop) (R1 R2 : relation A) (l : list A) :
  (forall x y, good x -> good y -> R1 x y -> R2 x y) ->
  Forall good l -> StronglySorted R1 l -> StronglySorted R2 l.
Proof.
  intros HR Hgood Hsorted.
  induction Hsorted as [|x l Hl IH Hx]; [constructor|].
  apply Forall_cons in Hgood as [Hgx Hgl]. constructor; [by apply IH|].
  rewrite Forall_forall. intros y Hy.
  apply HR; [done| |].
  - by apply (proj1 (Forall_forall _ _) Hgl).
  - by apply (proj1 (Forall_forall _ _) Hx).
Qed.

Lemma sorted_lookup {A} (R : relation A) (l : list A) i j a b :
  StronglySorted R l -> i < j -> l !! i = Some a -> l !! j = Some b -> R a b.
Proof.
  intros Hl. revert i j. induction Hl as [|x l Hl IH Hx]; intros i j Hij Hi Hj.
  - by rewrite lookup_nil in Hi.
  - destruct j as [|j]; [lia|]. destruct i as [|i]; simpl in *.
    + injection Hi as ->.
      apply (proj1 (Forall_forall _ _) Hx), (list_elem_of_lookup_2 _ j), Hj.
    + apply (IH i j); [lia|done..].
Qed.

(** ** Course recommendation *)

Lemma mentions_any_candidate missing c b :
  mentions_any missing (str_lower c) = Ok b -> b = is_candidate missing c.
Proof.
  destruct missing as [|skill missing], c as [s|]; simpl; congruence.
Qed.

Lemma mentions_any_text missing s :
  mentions_any missing (str_lower (Text s))
  = Ok (is_candidate missing (Text s)).
Proof. by destruct missing. Qed.

Lemma rows_where_filter {A} (f : A -> result bool) (g : A -> bool) df rows :
  (forall r b, f r = Ok b -> b = g r) ->
  rows_where f df = Ok rows -> rows = filter (fun r => g r) df.
Proof.
  intros Hfg. revert rows. induction df as [|r df IH]; simpl; intros rows.
  - by intros [= <-].
  - destruct (f r) as [b|e] eqn:Hf; simpl; [|done].
    destruct (rows_where f df) as [rest|e]; simpl; [|done].
    intros [= <-]. rewrite filter_cons, (Hfg r b Hf), <-(IH rest eq_refl).
    by destruct (g r).
Qed.

Lemma rows_where_returns {A} (f : A -> result bool) (g : A -> bool) df :
  Forall (fun r => f r = Ok (g r)) df ->
  rows_where f df = Ok (filter (fun r => g r) df).
Proof.
  induction 1 as [|r df Hr _ IH]; simpl; [done|].
  rewrite Hr, IH, filter_cons. simpl. by destruct (g r).
Qed.

Lemma professional_updated_candidates df missing updated :
  professional_updated df missing = Ok updated ->
  updated = professional_candidates df missing.
Proof.
  unfold professional_updated, professional_candidates.
  destruct (rows_where _ df) as [rows|e] eqn:Hrows; simpl; [|done].
  intros [= <-]. f_equal.
  apply (rows_where_filter _ (fun r => is_candidate missing (p_skills r)))
    in Hrows; [done|].
  intros r b. apply mentions_any_candidate.
Qed.

Lemma professional_updated_returns df missing :
  Forall (fun r => p_skills r <> NaN) df ->
  professional_updated df missing = Ok (professional_candidates df missing).
Proof.
  intros Hdf. unfold professional_updated.
  rewrite (rows_where_returns _
             (fun r => is_candidate missing (p_skills r))); [done|].
  eapply Forall_impl; [exact Hdf|]. intros r Hr. simpl in *.
  destruct (p_skills r) as [s|]; [apply mentions_any_text|done].
Qed.

Lemma foundation_updated_candidates `{Number} df missing updated :
  foundation_updated df missing = Ok updated ->
  updated = foundation_candidates df missing.
Proof.
  unfold foundation_updated, foundation_candidates.
  destruct (rows_where _ df) as [rows|e] eqn:Hrows; simpl; [|done].
  intros [= <-]. f_equal.
  apply (rows_where_filter _ (fun r => is_candidate missing (f_skills r)))
    in Hrows; [done|].
  intros r b. apply mentions_any_candidate.
Qed.

Lemma foundation_updated_returns `{Number} df missing :
  Forall (fun r => f_skills r <> NaN) df ->
  foundation_updated df missing = Ok (foundation_candidates df missing).
Proof.
  intros Hdf. unfold foundation_updated.
  rewrite (rows_where_returns _
             (fun r => is_candidate missing (f_skills r))); [done|].
  eapply Forall_impl; [exact Hdf|]. intros r Hr. simpl in *.
  destruct (f_skills r) as [s|]; [apply mentions_any_text|done].
Qed.

(** What the recommenders return: nothing for an empty list, else the
    head of the sorted candidates. *)
Lemma suggest_professional_courses_out df missing limit out :
  suggest_professional_courses df missing limit = Ok out ->
  out `prefix_of`
    Py.sort_reverse professional_lt (professional_candidates df missing).
Proof.
  unfold suggest_professional_courses. destruct (Py.is_empty missing).
  - intros [= <-]. apply prefix_nil.
  - destruct (professional_updated df missing) as [updated|e] eqn:Hupd;
      simpl; [|done].
    intros [= <-]. apply professional_updated_candidates in Hupd as ->.
    apply slice_to_prefix.
Qed.

Lemma suggest_professional_courses_returns df missing limit :
  Forall (fun r => p_skills r <> NaN) df ->
  exists out, suggest_professional_courses df missing limit = Ok out.
Proof.
  intros Hdf. unfold suggest_professional_courses.
  destruct (Py.is_empty missing); [by eexists|].
  rewrite professional_updated_returns by done. by eexists.
Qed.

Lemma suggest_foundation_courses_out `{Number} df missing limit out :
  suggest_foundation_courses df missing limit = Ok out ->
  out `prefix_of`
    Py.sort_reverse foundation_lt (foundation_candidates df missing).
Proof.
  unfold suggest_foundation_courses. destruct (Py.is_empty missing).
  - intros [= <-]. apply prefix_nil.
  - destruct (foundation_updated df missing) as [updated|e] eqn:Hupd;
      simpl; [|done].
    intros [= <-]. apply foundation_updated_candidates in Hupd as ->.
    apply slice_to_prefix.
Qed.

Lemma suggest_foundation_courses_returns `{Number} df missing limit :
  Forall (fun r => f_skills r <> NaN) df ->
  exists out, suggest_foundation_courses df missing limit = Ok out.
Proof.
  intros Hdf. unfold suggest_foundation_courses.
  destruct (Py.is_empty missing); [by eexists|].
  rewrite foundation_updated_returns by done. by eexists.
Qed.

(** *** The order of the sort keys *)

Section tuple_order.
Context `{NumberOrder}.
Implicit Types a b c : nat * num.

Lemma nle_total (x y : num) :
  is_number x -> is_number y -> nle x y = false -> nle y x = true.
Proof.
  intros Hx Hy Hxy. unfold nle at 1. rewrite nlt_nle, Hxy by done. done.
Qed.

Lemma tuple_ge_nle a b :
  tuple_ge a b = if a.1 =? b.1 then nle b.2 a.2 else b.1 <=? a.1.
Proof.
  unfold tuple_ge, nge. destruct (a.1 =? b.1); [|done].
  rewrite neq_nle. by destruct (nle a.2 b.2), (nle b.2 a.2).
Qed.

Lemma tuple_lt_ge a b :
  is_number a.2 -> is_number b.2 -> tuple_lt a b = negb (tuple_ge a b).
Proof.
  intros Ha Hb. rewrite tuple_ge_nle. unfold tuple_lt.
  destruct (Nat.eqb_spec a.1 b.1) as [Heq|Hne].
  - rewrite neq_nle, nlt_nle by done.
    by destruct (nle a.2 b.2), (nle b.2 a.2).
  - destruct (Nat.ltb_spec a.1 b.1), (Nat.leb_spec b.1 a.1); (done || lia).
Qed.

Lemma tuple_ge_trans a b c : tuple_ge a b -> tuple_ge b c -> tuple_ge a c.
Proof.
  rewrite !tuple_ge_nle.
  destruct (Nat.eqb_spec a.1 b.1) as [Hab|Hab],
           (Nat.eqb_spec b.1 c.1) as [Hbc|Hbc],
           (Nat.eqb_spec a.1 c.1) as [Hac|Hac];
    rewrite ?Is_true_true, ?Nat.leb_le; try lia.
  rewrite <-!Is_true_true. intros. by apply (nle_trans _ b.2).
Qed.

Lemma tuple_ge_total a b :
  is_number a.2 -> is_number b.2 ->
  tuple_ge a b = false -> tuple_ge b a = true.
Proof.
  intros Ha Hb. rewrite !tuple_ge_nle.
  destruct (Nat.eqb_spec a.1 b.1) as [Hab|Hab],
           (Nat.eqb_spec b.1 a.1) as [Hba|Hba];
    rewrite ?Nat.leb_le, ?Nat.leb_gt; try lia.
  by apply nle_total.
Qed.

Lemma tuple_eq_ge a b : tuple_eq a b -> tuple_ge a b.
Proof.
  rewrite tuple_ge_nle. unfold tuple_eq.
  destruct (a.1 =? b.1); [|done]. simpl. rewrite neq_nle.
  by destruct (nle a.2 b.2), (nle b.2 a.2).
Qed.

Lemma tuple_eq_le a b : tuple_eq a b -> tuple_ge b a.
Proof.
  rewrite tuple_ge_nle. unfold tuple_eq. rewrite (Nat.eqb_sym b.1).
  destruct (a.1 =? b.1); [|done]. simpl. rewrite neq_nle.
  by destruct (nle a.2 b.2), (nle b.2 a.2).
Qed.

Lemma tuple_eq_number a b : tuple_eq a b -> is_number a.2.
Proof.
  unfold tuple_eq. intros [_ Heq]%andb_True.
  rewrite neq_nle in Heq. apply andb_True in Heq as [Hle _].
  by apply nle_number in Hle as [? _].
Qed.

Lemma foundation_not_below (x y : FoundationCourse) :
  is_number (fc_rating x) -> is_number (fc_rating y) ->
  Py.not_below foundation_lt x y
  <-> tuple_ge (foundation_key x) (foundation_key y).
Proof.
  intros Hx Hy. unfold Py.not_below, foundation_lt.
  rewrite tuple_lt_ge by done. by destruct (tuple_ge _ _).
Qed.

Lemma foundation_sorted (l : list FoundationCourse) :
  Forall (fun x => is_number (fc_rating x)) l ->
  StronglySorted
    (fun x y => tuple_ge (foundation_key x) (foundation_key y))
    (Py.sort_reverse foundation_lt l).
Proof.
  intros Hl.
  apply (sorted_weaken (fun x => is_number (fc_rating x))
           (Py.not_below foundation_lt)).
  - intros x y Hx Hy. by apply foundation_not_below.
  - by rewrite sort_reverse_perm.
  - apply (sort_reverse_sorted _ (fun x => is_number (fc_rating x)));
      [| |done].
    + intros x y Hx Hy. unfold foundation_lt.
      rewrite !tuple_lt_ge by done.
      destruct (tuple_ge _ _) eqn:Hxy; [done|].
      by rewrite tuple_ge_total.
    + intros x y z Hx Hy Hz. rewrite !foundation_not_below by done.
      apply tuple_ge_trans.
Qed.

Lemma foundation_stable (k : nat * num) (l : list FoundationCourse) :
  filter (fun x : FoundationCourse => tuple_eq (foundation_key x) k)
         (Py.sort_reverse foundation_lt l)
  = filter (fun x : FoundationCourse => tuple_eq (foundation_key x) k) l.
Proof.
  apply sort_reverse_stable. intros x y Hx Hy.
  apply foundation_not_below;
    [exact (tuple_eq_number (foundation_key x) k Hx)
    |exact (tuple_eq_number (foundation_key y) k Hy)|].
  apply (tuple_ge_trans _ k); [by apply tuple_eq_ge|by apply tuple_eq_le].
Qed.

Lemma foundation_candidates_number df missing :
  Forall (fun r => is_number (f_rating r)) df ->
  Forall (fun x => is_number (fc_rating x)) (foundation_candidates df missing).
Proof.
  intros Hdf. unfold foundation_candidates. apply Forall_fmap.
  rewrite Forall_forall. intros r [_ Hr]%list_elem_of_filter.
  by apply (proj1 (Forall_forall _ _) Hdf).
Qed.
End tuple_order.

Lemma professional_sorted (l : list ProfessionalCourse) :
  StronglySorted (fun x y => pc_total_covered y <= pc_total_covered x)
    (Py.sort_reverse professional_lt l).
Proof.
  apply (sorted_weaken (fun _ => True) (Py.not_below professional_lt)).
  - intros x y _ _. unfold Py.not_below, professional_lt. apply Nat.ltb_ge.
  - by apply Forall_true.
  - apply (sort_reverse_sorted _ (fun _ => True)); [| |by apply Forall_true].
    + intros x y _ _. unfold professional_lt.
      rewrite Nat.ltb_lt, Nat.ltb_ge. lia.
    + intros x y z _ _ _. unfold Py.not_below, professional_lt.
      rewrite !Nat.ltb_ge. lia.
Qed.

Lemma professional_stable (k : nat) (l : list ProfessionalCourse) :
  filter (fun c => pc_total_covered c = k) (Py.sort_reverse professional_lt l)
  = filter (fun c => pc_total_covered c = k) l.
Proof.
  apply sort_reverse_stable. intros x y Hx Hy. unfold professional_lt.
  rewrite Hx, Hy. apply Nat.ltb_irrefl.
Qed.

Example suggest_professional_scenario :
  fmap (M:=list) pc_title <$>
    suggest_professional_courses professional_scenario ["excel"; "python"] 4
  = Ok [Text "A"; Text "B"; Text "Intro"].
Proof. reflexivity. Qed.

Example suggest_foundation_scenario :
  fmap (M:=list) fc_title <$>
    suggest_foundation_courses foundation_scenario ["excel"; "python"] 4
  = Ok [Text "Both"; Text "High"; Text "Tie"; Text "Low"].
Proof. reflexivity. Qed.

Example suggest_foundation_negative_limit :
  fmap (M:=list) fc_title <$>
    suggest_foundation_courses foundation_scenario ["excel"; "python"] (-1)
  = Ok [Text "Both"; Text "High"; Text "Tie"].
Proof. reflexivity. Qed.

(** Scanning a data frame with a missing skills cell raises; with no
    missing skill the data frame is not looked at. *)
Example suggest_professional_unreadable :
  suggest_professional_courses professional_unreadable ["r"] 4
    = Raise TypeError
  /\ suggest_professional_courses professional_unreadable [] 4 = Ok [].
Proof. split; reflexivity. Qed.

Example suggest_foundation_unrated :
  fmap (M:=list) foundation_key <$>
    suggest_foundation_courses foundation_unrated ["excel"] 4
  = Ok [(1, Qnan); (1, Qnum (45 # 10))].
Proof. reflexivity. Qed.

(** C6, as stated, fails for a foundation file with an empty rating: the
    two courses cover one skill each, the first has the rating NaN, and
    [(1, nan) >= (1, 4.5)] is [False]. *)
Lemma foundation_unrated_not_descending :
  ~ (forall (df : list FoundationRow) (missing : list string) (limit : Z)
            (out : list FoundationCourse) (i j : nat)
            (x y : FoundationCourse),
       suggest_foundation_courses df missing limit = Ok out ->
       i < j -> out !! i = Some x -> out !! j = Some y ->
       tuple_ge (foundation_key x) (foundation_key y)).
Proof.
  intros Hsorted.
  destruct (suggest_foundation_courses foundation_unrated ["excel"] 4)
    as [out|e] eqn:Hout; [|done].
  pose proof Hout as Hout'. injection Hout' as <-.
  exact (Hsorted foundation_unrated ["excel"] 4%Z _ 0 1 _ _ Hout
           (Nat.lt_0_1) eq_refl eq_refl).
Qed.

(** C6, amended: the professional recommender's output is in descending
    order of [total_covered], and its results with one and the same
    [total_covered] stand in the order their courses have in the data
    frame.  When every rating of the foundation file is a number (no field
    is empty), the foundation recommender's output is in descending order
    of the tuple [(total_covered, rating)], so that of two foundation
    results the earlier has the greater or equal tuple, and its results
    with one and the same tuple stand in the order their courses have in
    the data frame.  Both recommenders return when no skills cell is
    missing. *)
Theorem suggestions_sorted {N : Number} {NO : NumberOrder}
    (professional_df : list ProfessionalRow)
    (foundation_df : list FoundationRow) (missing : list string) (limit : Z) :
  (forall out,
     suggest_professional_courses professional_df missing limit = Ok out ->
     StronglySorted (fun x y => pc_total_covered y <= pc_total_covered x) out
     /\ forall k,
          filter (fun c => pc_total_covered c = k) out `prefix_of`
          filter (fun c => pc_total_covered c = k)
                 (professional_candidates professional_df missing))
  /\ (forall out,
     suggest_foundation_courses foundation_df missing limit = Ok out ->
     Forall (fun r => is_number (f_rating r)) foundation_df ->
     StronglySorted
       (fun x y => tuple_ge (foundation_key x) (foundation_key y)) out
     /\ (forall i j x y, i < j -> out !! i = Some x -> out !! j = Some y ->
          tuple_ge (foundation_key x) (foundation_key y))
     /\ forall k,
          filter (fun c => tuple_eq (foundation_key c) k) out `prefix_of`
          filter (fun c => tuple_eq (foundation_key c) k)
                 (foundation_candidates foundation_df missing))
  /\ (Forall (fun r => p_skills r <> NaN) professional_df ->
      exists out,
        suggest_professional_courses professional_df missing limit = Ok out)
  /\ (Forall (fun r => f_skills r <> NaN) foundation_df ->
      exists out,
        suggest_foundation_courses foundation_df missing limit = Ok out).
Proof.
  split_and!.
  - intros out Hout%suggest_professional_courses_out. split.
    + eapply prefix_sorted; [exact Hout|apply professional_sorted].
    + intros k.
      rewrite <-(professional_stable k (professional_candidates _ missing)).
      by apply prefix_filter.
  - intros out Hout%suggest_foundation_courses_out Hnum.
    assert (StronglySorted
              (fun x y => tuple_ge (foundation_key x) (foundation_key y))
              out) as Hsorted.
    { eapply prefix_sorted; [exact Hout|].
      by apply foundation_sorted, foundation_candidates_number. }
    split_and!; [done| |].
    + intros i j x y Hij Hi Hj.
      exact (sorted_lookup
               (fun x y => tuple_ge (foundation_key x) (foundation_key y))
               out i j x y Hsorted Hij Hi Hj).
    + intros k.
      rewrite <-(foundation_stable k (foundation_candidates _ missing)).
      by apply prefix_filter.
  - apply suggest_professional_courses_returns.
  - apply suggest_foundation_courses_returns.
Qed.

Lemma suggestions_sorted_witness :
  exists out,
    suggest_foundation_courses foundation_scenario ["excel"; "python"] 4
      = Ok out
    /\ forall i j x y, i < j -> out !! i = Some x -> out !! j = Some y ->
         tuple_ge (foundation_key x) (foundation_key y).
Proof.
  destruct (suggestions_sorted professional_scenario foundation_scenario
              ["excel"; "python"] 4) as (_ & Hf & _ & Hret).
  destruct Hret as [out Hout];
    [repeat (constructor; [done|]); constructor|].
  exists out. split; [exact Hout|].
  destruct (Hf out Hout) as (_ & Hdesc & _);
    [repeat (constructor; [exact I|]); constructor|exact Hdesc].
Defined.

(** C7: for a limit [K >= 0] both recommenders return at most [K]
    courses, and for an empty list of missing skills both return the empty
    list whatever the data frame holds (it is not looked at: see
    [suggest_professional_unreadable]).  Both return when no skills cell
    is missing. *)
Theorem suggestions_capped {N : Number}
    (professional_df : list ProfessionalRow)
    (foundation_df : list FoundationRow) (missing : list string) (limit : Z) :
  (0 <= limit)%Z ->
  (forall out,
     suggest_professional_courses professional_df missing limit = Ok out ->
     (Z.of_nat (length out) <= limit)%Z)
  /\ (forall out,
     suggest_foundation_courses foundation_df missing limit = Ok out ->
     (Z.of_nat (length out) <= limit)%Z)
  /\ suggest_professional_courses professional_df [] limit = Ok []
  /\ suggest_foundation_courses foundation_df [] limit = Ok []
  /\ (Forall (fun r => p_skills r <> NaN) professional_df ->
      exists out,
        suggest_professional_courses professional_df missing limit = Ok out)
  /\ (Forall (fun r => f_skills r <> NaN) foundation_df ->
      exists out,
        suggest_foundation_courses foundation_df missing limit = Ok out).
Proof.
  intros Hlimit. split_and!; try done.
  - unfold suggest_professional_courses. intros out.
    destruct (Py.is_empty missing); [intros [= <-]; simpl; lia|].
    destruct (professional_updated _ _) as [updated|e]; simpl; [|done].
    intros [= <-]. by apply slice_to_length.
  - unfold suggest_foundation_courses. intros out.
    destruct (Py.is_empty missing); [intros [= <-]; simpl; lia|].
    destruct (foundation_updated _ _) as [updated|e]; simpl; [|done].
    intros [= <-]. by apply slice_to_length.
  - apply suggest_professional_courses_returns.
  - apply suggest_foundation_courses_returns.
Qed.

Lemma suggestions_capped_witness :
  exists out,
    suggest_foundation_courses foundation_scenario ["excel"; "python"] 2
      = Ok out
    /\ (Z.of_nat (length out) <= 2)%Z.
Proof.
  destruct (suggestions_capped professional_scenario foundation_scenario
              ["excel"; "python"] 2) as (_ & Hf & _ & _ & _ & Hret); [lia|].
  destruct Hret as [out Hout];
    [repeat (constructor; [done|]); constructor|].
  exists out. split; [exact Hout|]. apply (Hf out Hout).
Defined.

Lemma slice_to_all {A} (limit : Z) (l : list A) :
  (Z.of_nat (length l) <= limit)%Z -> Py.slice_to limit l = l.
Proof.
  intros Hlen. unfold Py.slice_to.
  destruct (Z.ltb_spec limit 0); [lia|]. apply take_ge. lia.
Qed.

Lemma is_candidate_nonempty missing skills :
  is_candidate missing skills -> Py.is_empty missing = false.
Proof. by destruct skills, missing. Qed.

(** C9: a course that passes the substring filter is returned even when no
    token of its skills text is a missing skill, with [total_covered] 0
    (whenever the limit does not cut it off: here, when the limit is at
    least the size of the data frame).  The course "Statistics with R",
    skills "programming, statistics", is returned for the missing skill
    "r", which occurs inside "programming" and is none of the tokens. *)
Theorem zero_coverage_course_returned :
  (forall (df : list ProfessionalRow) (missing : list string) (limit : Z)
          (out : list ProfessionalCourse) (row : ProfessionalRow),
     suggest_professional_courses df missing limit = Ok out ->
     (Z.of_nat (length df) <= limit)%Z ->
     row ∈ df ->
     is_candidate missing (p_skills row) ->
     covered missing (p_skills row) = [] ->
     professional_entry missing row ∈ out
     /\ pc_total_covered (professional_entry missing row) = 0)
  /\ exists c,
       suggest_professional_courses professional_substring ["r"] 4 = Ok [c]
       /\ pc_total_covered c = 0
       /\ pc_covered_skills c = []
       /\ pc_title c = Text "Statistics with R"
       /\ is_candidate ["r"] (Text "programming, statistics") = true
       /\ parse_skills (Text "programming, statistics")
          = ["programming"; "statistics"].
Proof.
  split.
  - intros df missing limit out row Hout Hlimit Hrow Hcand Hcov.
    split; [|unfold professional_entry; simpl; by rewrite Hcov].
    unfold suggest_professional_courses in Hout.
    rewrite (is_candidate_nonempty _ _ Hcand) in Hout.
    destruct (professional_updated df missing) as [updated|e] eqn:Hupd;
      simpl in Hout; [|done].
    injection Hout as <-.
    apply professional_updated_candidates in Hupd as ->.
    assert (length (professional_candidates df missing) <= length df) as Hlen.
    { unfold professional_candidates. rewrite length_fmap.
      apply length_filter. }
    rewrite slice_to_all
      by (rewrite (Permutation_length (sort_reverse_perm _ _)); lia).
    rewrite sort_reverse_perm. unfold professional_candidates.
    apply list_elem_of_fmap_2. by apply list_elem_of_filter.
  - eexists. split_and!; reflexivity.
Qed.

Lemma zero_coverage_course_returned_witness :
  professional_entry ["r"] (course "Statistics with R"
                                   "programming, statistics")
  ∈ [professional_entry ["r"] (course "Statistics with R"
                                      "programming, statistics")].
Proof.
  destruct zero_coverage_course_returned as [Hall _].
  apply (Hall professional_substring ["r"] 4%Z _
           (course "Statistics with R" "programming, statistics")).
  - reflexivity.
  - simpl. lia.
  - left.
  - exact I.
  - reflexivity.
Defined.

(** ** The POST branch of [index] *)

Example index_post_scenario :
  exists professional foundation,
    index_post store_scenario "data analyst" "SQL, Power BI" (Qnum 2)
    = Ok (ResultPage "data analyst" ["sql"; "excel"; "python"] ["sql"]
            ["excel"; "python"] (Qnum (25 # 10))
            [("excel", Some (Qnum 5)); ("python", None)] (Qnum 2)
            professional foundation)
    /\ fmap pc_title professional = [Text "A"; Text "B"; Text "Intro"]
    /\ fmap fc_title foundation
       = [Text "Both"; Text "High"; Text "Tie"; Text "Low"].
Proof. do 2 eexists. split_and!; reflexivity. Qed.

Example index_post_unknown_job :
  index_post store_scenario "plumber" "SQL" (Qnum 2) = Ok ErrorPage.
Proof. reflexivity. Qed.

Example index_post_nothing_missing :
  index_post store_scenario "data analyst" "python, excel, sql" (Qnum 2)
  = Ok (ResultPage "data analyst" ["sql"; "excel"; "python"]
          ["sql"; "excel"; "python"] [] (Qnum (0 # 10)) [] (Qnum 2) [] []).
Proof. reflexivity. Qed.

(** For a target without special characters, and course files without
    missing skills cells: the error page is returned when no row is
    resolved, and also when the resolved row has no required skill;
    otherwise the result page with the gap, the duration estimate and both
    lists of courses. *)
Lemma index_post_literal `{Number} `{!Regex} `{!RegexLiteral} (db : Store)
    (target current : string) (hours_per_day : num) :
  re_literal (Py.lower target) ->
  Forall (fun r => p_skills r <> NaN) (professional_df db) ->
  Forall (fun r => f_skills r <> NaN) (foundation_df db) ->
  match gap_of current (resolve_job (job_details_df db) target) with
  | NoJob => index_post db target current hours_per_day = Ok ErrorPage
  | Gap _ required matched missing =>
      if Py.is_empty required
      then index_post db target current hours_per_day = Ok ErrorPage
      else exists professional foundation,
        suggest_professional_courses (professional_df db) missing 4
          = Ok professional
        /\ suggest_foundation_courses (foundation_df db) missing 4
           = Ok foundation
        /\ index_post db target current hours_per_day
           = Ok (ResultPage target required matched missing
                   (calculate_total_duration (skill_time_df db) missing
                      hours_per_day).1
                   (calculate_total_duration (skill_time_df db) missing
                      hours_per_day).2
                   hours_per_day professional foundation)
  end.
Proof.
  intros Hlit Hp Hf. unfold index_post.
  rewrite find_missing_skills_literal by done. simpl.
  destruct (gap_of _ _) as [|title required matched missing]; [done|].
  destruct (Py.is_empty required); [done|].
  destruct (suggest_professional_courses_returns _ missing 4 Hp)
    as [professional Hprof].
  destruct (suggest_foundation_courses_returns _ missing 4 Hf)
    as [foundation Hfound].
  exists professional, foundation. split_and!; [done..|].
  destruct (calculate_total_duration _ _ _) as [total_days skill_hours].
  by rewrite Hprof, Hfound.
Qed.

(** C4.  The guard of the error page is [not required], which holds of the
    empty list as well as of [None].  The row of "Data Analyst" has no
    skill requirements: the exact-match step finds it, the lookup returns
    its title with three empty lists, and the handler answers that the job
    was not found. *)
Theorem index_post_job_without_requirements :
  exact_match (job_details_df store_no_requirements) "data analyst"
    = [ {| job_title := Text "Data Analyst"; skill_requirements := NaN |} ]
  /\ find_missing_skills (job_details_df store_no_requirements)
       "data analyst" "sql"
     = Ok (Gap (Text "Data Analyst") [] [] [])
  /\ index_post store_no_requirements "data analyst" "sql" (Qnum 2)
     = Ok ErrorPage.
Proof. split_and!; reflexivity. Qed.

(** * Further properties of the code *)

(** ** Characters and strings *)

Lemma lower_char_idem c : Py.lower_char (Py.lower_char c) = Py.lower_char c.
Proof. by destruct c as [[] [] [] [] [] [] [] []]. Qed.

Lemma isspace_lower_char c : Py.isspace (Py.lower_char c) = Py.isspace c.
Proof. by destruct c as [[] [] [] [] [] [] [] []]. Qed.

Lemma lower_char_comma c :
  Ascii.eqb (Py.lower_char c) "," = Ascii.eqb c ",".
Proof. by destruct c as [[] [] [] [] [] [] [] []]. Qed.

Lemma lower_idem s : Py.lower (Py.lower s) = Py.lower s.
Proof. induction s; simpl; [done|]. by rewrite lower_char_idem, IHs. Qed.

Lemma lower_app s t : Py.lower (s +:+ t) = Py.lower s +:+ Py.lower t.
Proof. induction s; simpl; [done|]. by rewrite IHs. Qed.

Lemma lstrip_lower s : Py.lstrip (Py.lower s) = Py.lower (Py.lstrip s).
Proof.
  induction s as [|c s IH]; simpl; [done|].
  rewrite isspace_lower_char. by destruct (Py.isspace c).
Qed.

Lemma rstrip_lower s : Py.rstrip (Py.lower s) = Py.lower (Py.rstrip s).
Proof.
  induction s as [|c s IH]; simpl; [done|].
  rewrite IH, isspace_lower_char.
  destruct (Py.rstrip s); simpl; [by destruct (Py.isspace c)|done].
Qed.

Lemma strip_lower s : Py.strip (Py.lower s) = Py.lower (Py.strip s).
Proof. unfold Py.strip. by rewrite lstrip_lower, rstrip_lower. Qed.

Lemma split_at_lower s :
  Py.split_at "," (Py.lower s)
  = (Py.lower (Py.split_at "," s).1, Py.lower <$> (Py.split_at "," s).2).
Proof.
  induction s as [|c s IH]; simpl; [done|].
  rewrite IH, lower_char_comma. destruct (Py.split_at "," s) as [p ps].
  simpl. by destruct (Ascii.eqb c ",").
Qed.

Lemma split_lower s :
  Py.split "," (Py.lower s) = Py.lower <$> Py.split "," s.
Proof.
  unfold Py.split. rewrite split_at_lower.
  by destruct (Py.split_at "," s).
Qed.

Lemma lstrip_idem s : Py.lstrip (Py.lstrip s) = Py.lstrip s.
Proof.
  induction s as [|c s IH]; simpl; [done|].
  destruct (Py.isspace c) eqn:Hc; [done|]. simpl. by rewrite Hc.
Qed.

Lemma rstrip_idem s : Py.rstrip (Py.rstrip s) = Py.rstrip s.
Proof.
  induction s as [|c s IH]; simpl; [done|].
  destruct (Py.rstrip s) as [|d r] eqn:Hr.
  - destruct (Py.isspace c) eqn:Hc; simpl; [done|]. by rewrite Hc.
  - simpl in *. by rewrite IH.
Qed.

Lemma lstrip_rstrip s : Py.lstrip (Py.rstrip s) = Py.rstrip (Py.lstrip s).
Proof.
  induction s as [|c s IH]; simpl; [done|].
  destruct (Py.isspace c) eqn:Hc.
  - rewrite <-IH. destruct (Py.rstrip s); simpl; by rewrite ?Hc.
  - cbn [Py.rstrip]. destruct (Py.rstrip s); simpl; by rewrite Hc.
Qed.

Lemma strip_idem s : Py.strip (Py.strip s) = Py.strip s.
Proof.
  unfold Py.strip.
  by rewrite lstrip_rstrip, rstrip_idem, lstrip_idem.
Qed.

Lemma count_char_lower_comma s :
  Py.count_char "," (Py.lower s) = Py.count_char "," s.
Proof.
  induction s as [|c s IH]; simpl; [done|]. by rewrite lower_char_comma, IH.
Qed.

Lemma count_char_lstrip c s :
  Py.count_char c (Py.lstrip s) <= Py.count_char c s.
Proof.
  induction s as [|d s IH]; simpl; [done|].
  destruct (Py.isspace d); simpl; lia.
Qed.

Lemma count_char_rstrip c s :
  Py.count_char c (Py.rstrip s) <= Py.count_char c s.
Proof.
  induction s as [|d s IH]; simpl; [done|].
  destruct (Py.rstrip s) as [|e r]; simpl in *.
  - destruct (Py.isspace d); simpl; lia.
  - lia.
Qed.

Lemma count_char_strip c s :
  Py.count_char c (Py.strip s) <= Py.count_char c s.
Proof.
  unfold Py.strip. etransitivity; [apply count_char_rstrip|].
  apply count_char_lstrip.
Qed.

Lemma split_at_no_sep sep s :
  Py.count_char sep (Py.split_at sep s).1 = 0
  /\ Forall (fun p => Py.count_char sep p = 0) (Py.split_at sep s).2.
Proof.
  induction s as [|c s [IH1 IH2]]; simpl; [by split|].
  destruct (Py.split_at sep s) as [p ps]; simpl in *.
  destruct (Ascii.eqb c sep) eqn:Hc; simpl; [by split; [|constructor]|].
  rewrite Hc. by split.
Qed.

Lemma split_no_sep sep s :
  Forall (fun p => Py.count_char sep p = 0) (Py.split sep s).
Proof.
  unfold Py.split. pose proof (split_at_no_sep sep s) as [H1 H2].
  destruct (Py.split_at sep s). by constructor.
Qed.

(** ** Skill parser *)

Lemma parse_skills_token_lower (skill_text : cell) (tok : string) :
  tok ∈ parse_skills skill_text -> Py.lower tok = tok.
Proof.
  destruct skill_text as [t|]; simpl; [|by intros ?%elem_of_nil].
  destruct (Py.strip t); [by intros ?%elem_of_nil|].
  intros (p & -> & Hp)%list_elem_of_fmap. apply lower_idem.
Qed.

(** Every token of [parse_skills] is normalised: stripping or lower-casing
    it again changes nothing, and it holds no comma. *)
Theorem parse_skills_normalised (skill_text : cell) (tok : string) :
  tok ∈ parse_skills skill_text ->
  Py.strip tok = tok /\ Py.lower tok = tok /\ Py.count_char "," tok = 0.
Proof.
  intros Htok. split_and!; [| by apply (parse_skills_token_lower skill_text) |].
  - destruct skill_text as [t|]; simpl in Htok; [|by apply elem_of_nil in Htok].
    destruct (Py.strip t); [by apply elem_of_nil in Htok|].
    apply list_elem_of_fmap in Htok as (p & -> & Hp).
    by rewrite strip_lower, strip_idem.
  - destruct skill_text as [t|]; simpl in Htok; [|by apply elem_of_nil in Htok].
    destruct (Py.strip t); [by apply elem_of_nil in Htok|].
    apply list_elem_of_fmap in Htok as (p & -> & Hp).
    rewrite count_char_lower_comma.
    pose proof (count_char_strip "," p) as Hle.
    pose proof (proj1 (Forall_forall _ _) (split_no_sep "," t) p Hp).
    simpl in *. lia.
Qed.

Lemma parse_skills_normalised_witness :
  Py.strip "power bi" = "power bi" /\ Py.lower "power bi" = "power bi"
  /\ Py.count_char "," "power bi" = 0.
Proof.
  apply (parse_skills_normalised (Text " SQL ,  Power BI")).
  apply elem_of_cons. right. apply elem_of_cons. by left.
Defined.

(** [parse_skills] returns the empty list exactly for a value that is not
    a string and for a blank string; any other text gives at least one
    token. *)
Theorem parse_skills_empty_iff (skill_text : cell) :
  parse_skills skill_text = []
  <-> skill_text = NaN
      \/ exists t, skill_text = Text t /\ Py.strip t = EmptyString.
Proof.
  destruct skill_text as [t|]; simpl; [|by split; [left|]].
  destruct (Py.strip t) as [|c r] eqn:Hs.
  - split; [right; by exists t|done].
  - split.
    + intros Hnil. apply (f_equal length) in Hnil.
      rewrite length_map, split_length in Hnil. done.
    + intros [?|(t' & [= <-] & Ht')]; [done|]. congruence.
Qed.

(** [parse_skills] does not see the case of its input. *)
Lemma parse_skills_lower t :
  parse_skills (Text (Py.lower t)) = parse_skills (Text t).
Proof.
  simpl. rewrite strip_lower.
  destruct (Py.strip t) eqn:Hs; simpl; [done|].
  rewrite split_lower. change (@map string string) with (@fmap list _ string string).
  rewrite <-list_fmap_compose. apply list_fmap_ext. intros _ p _. simpl.
  by rewrite strip_lower, lower_idem.
Qed.

(** ** Gap analysis *)

Lemma gap_of_lower c1 c2 row :
  Py.lower c1 = Py.lower c2 -> gap_of c1 row = gap_of c2 row.
Proof.
  intros Hc. unfold gap_of.
  by rewrite <-(parse_skills_lower c1), Hc, parse_skills_lower.
Qed.

(** The lookup and the matching are blind to case: two requests whose
    target and skills text differ in case only get the same answer. *)
Theorem find_missing_skills_case_insensitive `{Regex} (df : list JobRow)
    (t1 t2 c1 c2 : string) :
  Py.lower t1 = Py.lower t2 -> Py.lower c1 = Py.lower c2 ->
  find_missing_skills df t1 c1 = find_missing_skills df t2 c2.
Proof.
  intros Ht Hc. rewrite !find_missing_skills_rows.
  unfold exact_match, partial_match. rewrite Ht.
  destruct (if Py.is_empty _ then _ else _) as [rows|e]; simpl; [|done].
  by rewrite (gap_of_lower c1 c2).
Qed.

Lemma find_missing_skills_case_insensitive_witness :
  find_missing_skills jobs_scenario "Data Analyst" "SQL, Power BI"
  = find_missing_skills jobs_scenario "DATA ANALYST" "sql, power bi".
Proof.
  apply (find_missing_skills_case_insensitive jobs_scenario); reflexivity.
Defined.

Lemma find_title_equals df target row :
  find (title_equals target) df = Some row ->
  row ∈ df
  /\ exists t, job_title row = Text t /\ Py.lower t = Py.lower target.
Proof.
  intros [Hin Heq]%find_some. split; [by apply list_elem_of_In|].
  unfold title_equals in Heq. destruct (job_title row) as [t|]; [|done].
  exists t. split; [done|]. by apply bool_decide_eq_true in Heq.
Qed.

Lemma exact_match_gap `{Regex} (df : list JobRow) (target current : string)
    (row : JobRow) :
  find (title_equals target) df = Some row ->
  find_missing_skills df target current = Ok (gap_of current (Some row)).
Proof.
  intros Hfind. rewrite find_missing_skills_rows.
  rewrite <-exact_match_find in Hfind.
  destruct (exact_match df target) as [|r rows]; [done|].
  simpl in *. by injection Hfind as ->.
Qed.

(** When some title equals the target up to case, the first such row is
    chosen and the target is never compiled as a pattern: whatever the
    regular-expression engine makes of it, the lookup does not raise. *)
Theorem find_missing_skills_exact `{Regex} (df : list JobRow)
    (target current : string) (row : JobRow) :
  find (title_equals target) df = Some row ->
  find_missing_skills df target current
  = Ok (Gap (job_title row) (parse_skills (skill_requirements row))
          (filter (fun s => s ∈ parse_skills (Text current))
                  (parse_skills (skill_requirements row)))
          (filter (fun s => s ∉ parse_skills (Text current))
                  (parse_skills (skill_requirements row))))
  /\ exists t, job_title row = Text t /\ Py.lower t = Py.lower target.
Proof.
  intros Hfind. split; [by apply exact_match_gap|].
  by apply (find_title_equals df).
Qed.

Lemma find_missing_skills_exact_witness :
  find_missing_skills jobs_mixed "c++ developer" "git"
  = Ok (Gap (Text "C++ Developer") ["c++"; "git"] ["git"] ["c++"]).
Proof.
  apply (find_missing_skills_exact jobs_mixed "c++ developer" "git"
           {| job_title := Text "C++ Developer";
              skill_requirements := Text "c++, git" |}).
  reflexivity.
Defined.


Lemma prefix_refl s : String.prefix s s = true.
Proof.
  induction s as [|c s IH]; simpl; [done|]. by destruct (ascii_dec c c).
Qed.

Lemma contains_refl s : Py.contains s s = true.
Proof.
  destruct s as [|c s]; [done|].
  change (Py.contains (String c s) (String c s))
    with (String.prefix (String c s) (String c s)
          || Py.contains s (String c s)).
  by rewrite prefix_refl.
Qed.

Lemma title_equals_contains target r :
  title_equals target r = true -> title_contains target r = true.
Proof.
  unfold title_equals, title_contains. destruct (job_title r); [|done].
  intros ->%bool_decide_eq_true. apply contains_refl.
Qed.

Lemma find_none_iff {A} (f : A -> bool) (l : list A) :
  find f l = None <-> forall x, x ∈ l -> f x = false.
Proof.
  induction l as [|y l IH]; simpl.
  - split; [by intros _ x ?%elem_of_nil|done].
  - destruct (f y) eqn:Hy.
    + split; [done|]. intros Hall. rewrite Hall in Hy; [done|left].
    + rewrite IH. split.
      * intros Hall x [->|?]%elem_of_cons; auto.
      * intros Hall x Hx. apply Hall. by right.
Qed.

(** For a target without special characters, the answer is "no job"
    exactly when no title of the file contains the lower-cased target. *)
Theorem find_missing_skills_no_job `{RegexLiteral} (df : list JobRow)
    (target current : string) :
  re_literal (Py.lower target) ->
  (find_missing_skills df target current = Ok NoJob
   <-> forall r, r ∈ df -> title_contains target r = false).
Proof.
  intros Hlit. rewrite find_missing_skills_literal by done.
  rewrite <-find_none_iff. unfold resolve_job.
  destruct (find (title_equals target) df) as [r|] eqn:Heq; simpl.
  - split; [done|]. intros Hnone.
    apply find_some in Heq as [Hin Heq]. apply title_equals_contains in Heq.
    rewrite (proj1 (find_none_iff _ _) Hnone r) in Heq; [done|].
    by apply list_elem_of_In.
  - destruct (find (title_contains target) df); simpl; split; congruence.
Qed.

Lemma find_missing_skills_no_job_witness :
  find_missing_skills jobs_scenario "plumber" "sql" = Ok NoJob
  <-> forall r, r ∈ jobs_scenario -> title_contains "plumber" r = false.
Proof.
  apply (find_missing_skills_no_job jobs_scenario "plumber" "sql").
  exact I.
Defined.

Lemma lstrip_app_empty a b :
  Py.lstrip (a +:+ b) = EmptyString -> Py.lstrip a = EmptyString.
Proof.
  induction a as [|c a IH]; simpl; [done|]. by destruct (Py.isspace c).
Qed.

Lemma lstrip_head s c t : Py.lstrip s = String c t -> Py.isspace c = false.
Proof.
  induction s as [|d s IH]; simpl; [done|].
  destruct (Py.isspace d) eqn:Hd; [done|]. by intros [= <- _].
Qed.

Lemma strip_empty s : Py.strip s = EmptyString <-> Py.lstrip s = EmptyString.
Proof.
  unfold Py.strip. split; [|by intros ->].
  destruct (Py.lstrip s) as [|c t] eqn:Hs; [done|].
  apply lstrip_head in Hs. simpl. rewrite Hs. by destruct (Py.rstrip t).
Qed.

Lemma strip_app_empty a b :
  Py.strip (a +:+ b) = EmptyString -> Py.strip a = EmptyString.
Proof. rewrite !strip_empty. apply lstrip_app_empty. Qed.

Lemma split_at_app sep a b :
  Py.split_at sep (a +:+ String sep b)
  = ((Py.split_at sep a).1, (Py.split_at sep a).2 ++ Py.split sep b).
Proof.
  induction a as [|c a IH]; simpl.
  - unfold Py.split. destruct (Py.split_at sep b).
    by rewrite Ascii.eqb_refl.
  - rewrite IH. destruct (Py.split_at sep a) as [p ps]; simpl.
    by destruct (Ascii.eqb c sep).
Qed.

Lemma split_app sep a b :
  Py.split sep (a +:+ String sep b) = Py.split sep a ++ Py.split sep b.
Proof.
  unfold Py.split at 1 2. rewrite split_at_app.
  by destruct (Py.split_at sep a).
Qed.

(** Skills added to the text, after a comma, keep all tokens it had. *)
Lemma parse_skills_append c extra :
  parse_skills (Text c) ⊆ parse_skills (Text (c +:+ String "," extra)).
Proof.
  simpl. destruct (Py.strip c) as [|d r] eqn:Hc; [by intros x ?%elem_of_nil|].
  destruct (Py.strip (c +:+ String "," extra)) eqn:Hce.
  - apply strip_app_empty in Hce. congruence.
  - rewrite split_app, map_app. intros x Hx. apply elem_of_app. by left.
Qed.

Lemma filter_sublist_impl {A} (P Q : A -> Prop) `{!forall x, Decision (P x)}
    `{!forall x, Decision (Q x)} (l : list A) :
  (forall x, P x -> Q x) -> filter P l `sublist_of` filter Q l.
Proof.
  intros HPQ. induction l as [|x l IH]; [done|].
  rewrite !filter_cons.
  destruct (decide (P x)) as [HP|HP], (decide (Q x)) as [HQ|HQ].
  - by apply sublist_skip.
  - by destruct HQ; apply HPQ.
  - by apply sublist_cons.
  - done.
Qed.

(** Declaring more skills never adds a missing skill: when skills are
    appended to the text after a comma, the same job is resolved, every
    skill still missing was missing before, and every skill matched
    before is still matched. *)
Theorem find_missing_skills_more_skills `{Regex} (df : list JobRow)
    (target current extra : string) title required matched missing :
  find_missing_skills df target current
    = Ok (Gap title required matched missing) ->
  exists matched' missing',
    find_missing_skills df target (current +:+ String "," extra)
      = Ok (Gap title required matched' missing')
    /\ missing' `sublist_of` missing
    /\ matched `sublist_of` matched'.
Proof.
  rewrite !find_missing_skills_rows.
  destruct (if Py.is_empty _ then _ else _) as [[|row rows]|e];
    simpl; try done.
  intros [= <- <- <- <-]. do 2 eexists. split; [done|].
  pose proof (parse_skills_append current extra) as Hsub.
  split; apply filter_sublist_impl; intros s Hs; auto.
Qed.

Lemma find_missing_skills_more_skills_witness :
  exists matched' missing',
    find_missing_skills jobs_scenario "data analyst"
      ("SQL, Power BI" +:+ String "," " Excel")
      = Ok (Gap (Text "Data Analyst") ["sql"; "excel"; "python"]
              matched' missing')
    /\ missing' `sublist_of` ["excel"; "python"]
    /\ ["sql"] `sublist_of` matched'.
Proof.
  apply (find_missing_skills_more_skills jobs_scenario "data analyst"
           "SQL, Power BI" " Excel").
  reflexivity.
Defined.

(** ** Duration estimate *)

Lemma dict_set_fresh {V} (k : string) (v : V) (d : list (string * V)) :
  Py.dict_get k d = None -> Py.dict_set k v d = d ++ [(k, v)].
Proof.
  induction d as [|[k' v'] d IH]; simpl; [done|].
  destruct (decide (k = k')); [done|]. intros Hget. by rewrite IH.
Qed.

Lemma first_occurrences_snoc l s :
  first_occurrences (l ++ [s])
  = if decide (s ∈ l) then first_occurrences l else first_occurrences l ++ [s].
Proof.
  induction l as [|x l IH].
  - destruct (decide (s ∈ [])) as [Hin|_]; [by apply elem_of_nil in Hin|done].
  - rewrite <-app_comm_cons. cbn [first_occurrences]. rewrite IH.
    destruct (decide (s ∈ x :: l)) as [Hin|Hnin], (decide (s ∈ l)) as [Hl|Hl].
    + done.
    + apply elem_of_cons in Hin as [->|?]; [|done].
      rewrite filter_app, filter_cons, decide_False by auto.
      by rewrite filter_nil, app_nil_r.
    + destruct Hnin. by right.
    + rewrite filter_app, filter_cons, decide_True.
      * by rewrite filter_nil.
      * intros ->. apply Hnin. left.
Qed.

(** The returned dict has one key for each distinct missing skill, in the
    order of their first occurrences, each with the skill's entry in the
    duration table (null when it has none). *)
Theorem skill_hours_entries `{Number} (df : list SkillTimeRow)
    (missing : list string) (hours_per_day : num) :
  (calculate_total_duration df missing hours_per_day).2
  = (fun skill => (skill, duration_entry df skill)) <$>
      first_occurrences missing.
Proof.
  rewrite calculate_total_duration_eq. cbn [snd].
  induction missing as [|s missing IH] using rev_ind; [done|].
  rewrite duration_loop_snoc, first_occurrences_snoc.
  pose proof (duration_loop_get df missing s) as Hget.
  destruct (duration_loop df missing) as [total d].
  rewrite duration_step_entry. cbn [snd] in *.
  destruct (decide (s ∈ missing)).
  - by rewrite dict_set_same.
  - by rewrite dict_set_fresh, fmap_app, IH.
Qed.

Example skill_hours_entries_repeated :
  (calculate_total_duration durations_scenario
     ["excel"; "python"; "excel"; "sql"; "python"] (Qnum 2)).2
  = [("excel", Some (Qnum 5)); ("python", None); ("sql", Some (Qnum 10))].
Proof. reflexivity. Qed.

(** ** Course recommendation *)

Lemma is_candidate_nil skills : is_candidate [] skills = false.
Proof. by destruct skills. Qed.

Lemma filter_none {A} (P : A -> Prop) `{!forall x, Decision (P x)}
    (l : list A) :
  (forall x, x ∈ l -> ~ P x) -> filter P l = [].
Proof.
  intros Hnone. induction l as [|x l IH]; [done|].
  rewrite filter_cons, decide_False by (apply Hnone; left).
  apply IH. intros y Hy. apply Hnone. by right.
Qed.

Lemma suggest_professional_courses_eq df missing limit out :
  suggest_professional_courses df missing limit = Ok out ->
  out = Py.slice_to limit
          (Py.sort_reverse professional_lt (professional_candidates df missing)).
Proof.
  unfold suggest_professional_courses. destruct missing as [|s missing].
  - intros [= <-]. unfold professional_candidates.
    rewrite filter_none;
      [unfold Py.slice_to; simpl;
       by destruct (limit <? 0)%Z; rewrite take_nil|].
    intros r _ Hc. by rewrite is_candidate_nil in Hc.
  - cbn [Py.is_empty].
    destruct (professional_updated _ _) as [updated|e] eqn:Hupd;
      simpl; [|done].
    intros [= <-]. by apply professional_updated_candidates in Hupd as ->.
Qed.

Lemma suggest_foundation_courses_eq `{Number} df missing limit out :
  suggest_foundation_courses df missing limit = Ok out ->
  out = Py.slice_to limit
          (Py.sort_reverse foundation_lt (foundation_candidates df missing)).
Proof.
  unfold suggest_foundation_courses. destruct missing as [|s missing].
  - intros [= <-]. unfold foundation_candidates.
    rewrite filter_none;
      [unfold Py.slice_to; simpl;
       by destruct (limit <? 0)%Z; rewrite take_nil|].
    intros r _ Hc. by rewrite is_candidate_nil in Hc.
  - cbn [Py.is_empty].
    destruct (foundation_updated _ _) as [updated|e] eqn:Hupd;
      simpl; [|done].
    intros [= <-]. by apply foundation_updated_candidates in Hupd as ->.
Qed.

Lemma covered_spec missing skills s :
  s ∈ covered missing skills <-> s ∈ missing /\ s ∈ parse_skills skills.
Proof.
  unfold covered. rewrite list_elem_of_filter, elem_of_list_to_set. tauto.
Qed.

Lemma covered_sublist missing skills :
  covered missing skills `sublist_of` missing.
Proof. apply sublist_filter. Qed.

Lemma professional_candidates_origin df missing c :
  c ∈ professional_candidates df missing ->
  exists row, row ∈ df /\ is_candidate missing (p_skills row)
              /\ c = professional_entry missing row.
Proof.
  intros (row & -> & [Hc Hrow]%list_elem_of_filter)%list_elem_of_fmap.
  by exists row.
Qed.

Lemma foundation_candidates_origin `{Number} df missing c :
  c ∈ foundation_candidates df missing ->
  exists row, row ∈ df /\ is_candidate missing (f_skills row)
              /\ c = foundation_entry missing row.
Proof.
  intros (row & -> & [Hc Hrow]%list_elem_of_filter)%list_elem_of_fmap.
  by exists row.
Qed.

(** Every course a recommender returns is made from a row of its data
    frame that passed the substring filter; its [covered_skills] are the
    missing skills that are tokens of the row's skills text, in the order
    of the missing skills, and [total_covered] is their number. *)
Theorem suggested_courses_origin {N : Number}
    (professional_df : list ProfessionalRow)
    (foundation_df : list FoundationRow) (missing : list string) (limit : Z) :
  (forall out c,
     suggest_professional_courses professional_df missing limit = Ok out ->
     c ∈ out ->
     pc_covered_skills c `sublist_of` missing
     /\ pc_total_covered c = length (pc_covered_skills c)
     /\ exists row, row ∈ professional_df
          /\ is_candidate missing (p_skills row)
          /\ c = professional_entry missing row
          /\ forall s, s ∈ pc_covered_skills c
                       <-> s ∈ missing /\ s ∈ parse_skills (p_skills row))
  /\ (forall out c,
     suggest_foundation_courses foundation_df missing limit = Ok out ->
     c ∈ out ->
     fc_covered_skills c `sublist_of` missing
     /\ fc_total_covered c = length (fc_covered_skills c)
     /\ exists row, row ∈ foundation_df
          /\ is_candidate missing (f_skills row)
          /\ c = foundation_entry missing row
          /\ forall s, s ∈ fc_covered_skills c
                       <-> s ∈ missing /\ s ∈ parse_skills (f_skills row)).
Proof.
  split.
  - intros out c [k Hout]%suggest_professional_courses_out Hc.
    assert (c ∈ professional_candidates professional_df missing) as Hcand.
    { rewrite <-(sort_reverse_perm professional_lt), Hout.
      apply elem_of_app. by left. }
    apply professional_candidates_origin in Hcand as (row & Hrow & Hf & ->).
    split_and!; [apply covered_sublist|done|].
    exists row. split_and!; try done. intros s. apply covered_spec.
  - intros out c [k Hout]%suggest_foundation_courses_out Hc.
    assert (c ∈ foundation_candidates foundation_df missing) as Hcand.
    { rewrite <-(sort_reverse_perm foundation_lt), Hout.
      apply elem_of_app. by left. }
    apply foundation_candidates_origin in Hcand as (row & Hrow & Hf & ->).
    split_and!; [apply covered_sublist|done|].
    exists row. split_and!; try done. intros s. apply covered_spec.
Qed.

Lemma suggested_courses_origin_witness :
  pc_covered_skills
    (professional_entry ["excel"; "python"] (course "B" "python, excel"))
  `sublist_of` ["excel"; "python"].
Proof.
  destruct (suggested_courses_origin professional_scenario
              foundation_scenario ["excel"; "python"] 4) as [Hp _].
  refine (proj1 (Hp _ _ eq_refl _)).
  apply elem_of_cons. right. apply elem_of_cons. by left.
Defined.

Lemma slice_to_length_eq {A} (limit : Z) (l : list A) :
  Z.of_nat (length (Py.slice_to limit l))
  = if (limit <? 0)%Z then Z.max 0 (Z.of_nat (length l) + limit)
    else Z.min limit (Z.of_nat (length l)).
Proof.
  unfold Py.slice_to. destruct (Z.ltb_spec limit 0); rewrite length_take; lia.
Qed.

(** How many courses are returned: with [n] rows passing the substring
    filter, [min(limit, n)] for a limit that is not negative, and
    [max(0, n + limit)] for a negative limit, which cuts the last
    [-limit] courses of the ranking off. *)
Theorem suggested_courses_length {N : Number}
    (professional_df : list ProfessionalRow)
    (foundation_df : list FoundationRow) (missing : list string) (limit : Z) :
  (forall out,
     suggest_professional_courses professional_df missing limit = Ok out ->
     Z.of_nat (length out)
     = if (limit <? 0)%Z
       then Z.max 0 (Z.of_nat (length (filter
              (fun r => is_candidate missing (p_skills r)) professional_df))
              + limit)
       else Z.min limit (Z.of_nat (length (filter
              (fun r => is_candidate missing (p_skills r)) professional_df))))
  /\ (forall out,
     suggest_foundation_courses foundation_df missing limit = Ok out ->
     Z.of_nat (length out)
     = if (limit <? 0)%Z
       then Z.max 0 (Z.of_nat (length (filter
              (fun r => is_candidate missing (f_skills r)) foundation_df))
              + limit)
       else Z.min limit (Z.of_nat (length (filter
              (fun r => is_candidate missing (f_skills r)) foundation_df)))).
Proof.
  split.
  - intros out ->%suggest_professional_courses_eq.
    rewrite slice_to_length_eq, (Permutation_length (sort_reverse_perm _ _)).
    unfold professional_candidates. by rewrite length_fmap.
  - intros out ->%suggest_foundation_courses_eq.
    rewrite slice_to_length_eq, (Permutation_length (sort_reverse_perm _ _)).
    unfold foundation_candidates. by rewrite length_fmap.
Qed.

Lemma suggested_courses_length_witness :
  exists out,
    suggest_foundation_courses foundation_scenario ["excel"; "python"] (-1)
      = Ok out
    /\ Z.of_nat (length out) = 3%Z.
Proof.
  destruct (suggest_foundation_courses foundation_scenario
              ["excel"; "python"] (-1)) as [out|e] eqn:Hout; [|done].
  exists out. split; [done|].
  destruct (suggested_courses_length professional_scenario
              foundation_scenario ["excel"; "python"] (-1)) as [_ Hf].
  exact (Hf out Hout).
Defined.

(** The ranking is cut, not sampled: the candidates are the returned
    courses together with the courses left out, and no course left out
    has a greater key than a returned one.  For the foundation courses
    this needs every rating to be a number. *)
Theorem suggested_courses_best {N : Number} {NO : NumberOrder}
    (professional_df : list ProfessionalRow)
    (foundation_df : list FoundationRow) (missing : list string) (limit : Z) :
  (forall out,
     suggest_professional_courses professional_df missing limit = Ok out ->
     exists rest,
       out ++ rest ≡ₚ professional_candidates professional_df missing
       /\ forall x y, x ∈ out -> y ∈ rest ->
            pc_total_covered y <= pc_total_covered x)
  /\ (forall out,
     suggest_foundation_courses foundation_df missing limit = Ok out ->
     Forall (fun r => is_number (f_rating r)) foundation_df ->
     exists rest,
       out ++ rest ≡ₚ foundation_candidates foundation_df missing
       /\ forall x y, x ∈ out -> y ∈ rest ->
            tuple_ge (foundation_key x) (foundation_key y)).
Proof.
  split.
  - intros out [rest Hout]%suggest_professional_courses_out.
    exists rest. split; [by rewrite <-Hout, sort_reverse_perm|].
    pose proof (professional_sorted
                  (professional_candidates professional_df missing)) as Hs.
    rewrite Hout in Hs. apply StronglySorted_app in Hs as (Hcross & _ & _).
    intros x y Hx Hy. by apply Hcross.
  - intros out [rest Hout]%suggest_foundation_courses_out Hnum.
    exists rest. split; [by rewrite <-Hout, sort_reverse_perm|].
    pose proof (foundation_sorted _
                  (foundation_candidates_number foundation_df missing Hnum))
      as Hs.
    rewrite Hout in Hs. apply StronglySorted_app in Hs as (Hcross & _ & _).
    intros x y Hx Hy. by apply Hcross.
Qed.

Lemma suggested_courses_best_witness :
  exists out rest,
    suggest_foundation_courses foundation_scenario ["excel"; "python"] 2
      = Ok out
    /\ out ++ rest
       ≡ₚ foundation_candidates foundation_scenario ["excel"; "python"]
    /\ forall x y, x ∈ out -> y ∈ rest ->
         tuple_ge (foundation_key x) (foundation_key y).
Proof.
  destruct (suggest_foundation_courses foundation_scenario
              ["excel"; "python"] 2) as [out|e] eqn:Hout; [|done].
  destruct (suggested_courses_best professional_scenario
              foundation_scenario ["excel"; "python"] 2) as [_ Hf].
  destruct (Hf out Hout) as (rest & Hperm & Hbest).
  - repeat (constructor; [exact I|]). constructor.
  - by exists out, rest.
Defined.

Lemma rows_where_mentions {A} (skills : A -> cell) (missing : list string)
    (df : list A) :
  missing <> [] ->
  rows_where (fun r => mentions_any missing (str_lower (skills r))) df
  = if decide (Exists (fun r => skills r = NaN) df) then Raise TypeError
    else Ok (filter (fun r => is_candidate missing (skills r)) df).
Proof.
  intros Hmissing. induction df as [|r df IH].
  - by destruct (decide (Exists _ [])) as [?%Exists_nil|].
  - cbn [rows_where]. rewrite IH, filter_cons.
    destruct (skills r) as [s|] eqn:Hr.
    + rewrite mentions_any_text.
      destruct (decide (Exists _ df)) as [Hex|Hex],
               (decide (Exists _ (r :: df))) as [Hex'|Hex']; simpl.
      * done.
      * destruct Hex'. by right.
      * apply Exists_cons in Hex' as [?|?]; [congruence|done].
      * f_equal. destruct (existsb _ missing); by destruct (decide _).
    + destruct (decide (Exists _ (r :: df))) as [Hex'|Hex'].
      * by destruct missing.
      * destruct Hex'. by left.
Qed.

Lemma suggest_professional_courses_raise df missing limit e :
  suggest_professional_courses df missing limit = Raise e
  <-> e = TypeError /\ missing <> []
      /\ exists r, r ∈ df /\ p_skills r = NaN.
Proof.
  unfold suggest_professional_courses, professional_updated.
  destruct missing as [|s missing].
  { split; [done|]. by intros (_ & ? & _). }
  cbn [Py.is_empty]. rewrite (rows_where_mentions p_skills) by done.
  destruct (decide (Exists _ df)) as [Hex|Hex]; simpl.
  - apply Exists_exists in Hex. split; [by intros [= <-]|].
    by intros (-> & _).
  - split; [done|]. intros (_ & _ & Hnan). destruct Hex.
    by apply Exists_exists.
Qed.

Lemma suggest_foundation_courses_raise `{Number} df missing limit e :
  suggest_foundation_courses df missing limit = Raise e
  <-> e = TypeError /\ missing <> []
      /\ exists r, r ∈ df /\ f_skills r = NaN.
Proof.
  unfold suggest_foundation_courses, foundation_updated.
  destruct missing as [|s missing].
  { split; [done|]. by intros (_ & ? & _). }
  cbn [Py.is_empty]. rewrite (rows_where_mentions f_skills) by done.
  destruct (decide (Exists _ df)) as [Hex|Hex]; simpl.
  - apply Exists_exists in Hex. split; [by intros [= <-]|].
    by intros (-> & _).
  - split; [done|]. intros (_ & _ & Hnan). destruct Hex.
    by apply Exists_exists.
Qed.

(** Where the "skills" column of its file is a text column (the file has
    no rows, or skills text in one of them), a recommender raises in one
    case only: there is a missing skill to look for and some row of the
    file has no skills text; the exception is then the [TypeError] of [in]
    applied to a missing value. *)
Theorem suggest_courses_raises {N : Number}
    (professional_df : list ProfessionalRow)
    (foundation_df : list FoundationRow) (missing : list string) (limit : Z)
    (e : exn) :
  (text_column (p_skills <$> professional_df) ->
   (suggest_professional_courses professional_df missing limit = Raise e
    <-> e = TypeError /\ missing <> []
        /\ exists r, r ∈ professional_df /\ p_skills r = NaN))
  /\ (text_column (f_skills <$> foundation_df) ->
   (suggest_foundation_courses foundation_df missing limit = Raise e
    <-> e = TypeError /\ missing <> []
        /\ exists r, r ∈ foundation_df /\ f_skills r = NaN)).
Proof.
  split; intros _; [apply suggest_professional_courses_raise|].
  apply suggest_foundation_courses_raise.
Qed.

Lemma suggest_courses_raises_witness :
  suggest_professional_courses professional_unreadable ["r"] 4
  = Raise TypeError.
Proof.
  destruct (suggest_courses_raises (N:=Q_number) professional_unreadable
              foundation_scenario ["r"] 4 TypeError) as [Hp _].
  apply Hp.
  - right. exists "knives". left.
  - split_and!; [done..|].
    exists {| p_title := Text "Untitled"; p_link := NaN; p_provider := NaN;
              p_platform := NaN; p_credential := NaN; p_duration := NaN;
              p_skills := NaN |}.
    split; [right; left|done].
Defined.

(** *** The substring filter lets every covering course through *)

Local Arguments String.append : simpl nomatch.

Lemma append_assoc (a b c : string) : ((a +:+ b) +:+ c) = (a +:+ b +:+ c).
Proof. induction a as [|x a IH]; simpl; [done|]. by rewrite IH. Qed.

Lemma append_empty_r (a : string) : (a +:+ EmptyString) = a.
Proof. induction a as [|x a IH]; simpl; [done|]. by rewrite IH. Qed.

Lemma prefix_append p b : String.prefix p (p +:+ b) = true.
Proof.
  induction p as [|c p IH]; simpl; [by destruct b|].
  by destruct (ascii_dec c c).
Qed.

Lemma contains_unfold s pat :
  Py.contains s pat
  = String.prefix pat s
    || match s with
       | EmptyString => false
       | String _ s' => Py.contains s' pat
       end.
Proof. by destruct s. Qed.

Lemma substring_of_contains p s : substring_of p s -> Py.contains s p = true.
Proof.
  intros (a & b & ->). induction a as [|c a IH].
  - rewrite contains_unfold. simpl. by rewrite prefix_append.
  - change (Py.contains (String c a +:+ p +:+ b) p)
      with (String.prefix p (String c (a +:+ p +:+ b))
            || Py.contains (a +:+ p +:+ b) p).
    rewrite IH. apply orb_true_r.
Qed.

Lemma substring_of_refl s : substring_of s s.
Proof. exists EmptyString, EmptyString. simpl. by rewrite append_empty_r. Qed.

Lemma substring_of_trans p q s :
  substring_of p q -> substring_of q s -> substring_of p s.
Proof.
  intros (a & b & ->) (a' & b' & ->). exists (a' +:+ a), (b +:+ b').
  by rewrite !append_assoc.
Qed.

Lemma substring_of_lower p s :
  substring_of p s -> substring_of (Py.lower p) (Py.lower s).
Proof.
  intros (a & b & ->). exists (Py.lower a), (Py.lower b).
  by rewrite !lower_app.
Qed.

Lemma lstrip_suffix s : exists a, s = (a +:+ Py.lstrip s).
Proof.
  induction s as [|c s [a IH]]; simpl; [by exists EmptyString|].
  destruct (Py.isspace c).
  - exists (String c a). simpl. by rewrite <-IH.
  - by exists EmptyString.
Qed.

Lemma rstrip_prefix s : exists b, s = (Py.rstrip s +:+ b).
Proof.
  induction s as [|c s [b IH]]; simpl; [by exists EmptyString|].
  destruct (Py.rstrip s) as [|d r]; simpl in *.
  - destruct (Py.isspace c); [by exists (String c s)|].
    exists b. by rewrite IH.
  - exists b. by rewrite IH.
Qed.

Lemma substring_of_strip s : substring_of (Py.strip s) s.
Proof.
  unfold Py.strip. destruct (lstrip_suffix s) as [a Ha].
  destruct (rstrip_prefix (Py.lstrip s)) as [b Hb].
  exists a, b. by rewrite <-Hb.
Qed.

Lemma split_at_substring sep s :
  (exists b, s = ((Py.split_at sep s).1 +:+ b))
  /\ Forall (fun p => substring_of p s) (Py.split_at sep s).2.
Proof.
  induction s as [|c s [[b IH1] IH2]]; simpl.
  - split; [by exists EmptyString|constructor].
  - assert (forall p, substring_of p s -> substring_of p (String c s))
      as Hcons.
    { intros p (a' & b' & ->). by exists (String c a'), b'. }
    destruct (Py.split_at sep s) as [p ps]; simpl in *.
    destruct (Ascii.eqb c sep); simpl.
    + split; [by exists (String c s)|]. constructor.
      * apply Hcons. exists EmptyString, b. by simpl.
      * eapply Forall_impl; [exact IH2|]. apply Hcons.
    + split; [exists b; by rewrite <-IH1|].
      eapply Forall_impl; [exact IH2|]. apply Hcons.
Qed.

Lemma split_substring sep s p : p ∈ Py.split sep s -> substring_of p s.
Proof.
  unfold Py.split. destruct (split_at_substring sep s) as [[b H1] H2].
  destruct (Py.split_at sep s) as [p0 ps]; simpl in *.
  intros [->|Hp]%elem_of_cons.
  - exists EmptyString, b. by simpl.
  - by apply (proj1 (Forall_forall _ _) H2).
Qed.

(** A token of a skills text occurs in its lower-cased form. *)
Lemma parse_skills_substring t tok :
  tok ∈ parse_skills (Text t) -> substring_of tok (Py.lower t).
Proof.
  simpl. destruct (Py.strip t); [by intros ?%elem_of_nil|].
  intros (p & -> & Hp)%list_elem_of_fmap. apply substring_of_lower.
  eapply substring_of_trans; [apply substring_of_strip|].
  by apply (split_substring ",").
Qed.

(** The coarse filter loses nothing: a course whose skills text has a
    missing skill among its tokens passes the substring filter. *)
Lemma covering_course_is_candidate_aux (missing : list string)
    (skills : cell) (s : string) :
  s ∈ covered missing skills -> is_candidate missing skills = true.
Proof.
  intros [Hmissing Htok]%covered_spec.
  destruct skills as [t|]; [|by apply elem_of_nil in Htok].
  simpl. apply existsb_exists. exists s. split; [by apply list_elem_of_In|].
  apply substring_of_contains.
  rewrite (parse_skills_token_lower (Text t) s Htok).
  by apply parse_skills_substring.
Qed.

(** A course that covers a missing skill passes the filter, so it is
    left out of the answer only by the ranking: it is returned, or every
    returned course covers at least as many missing skills. *)
Theorem covering_course_ranked (professional_df : list ProfessionalRow)
    (missing : list string) (limit : Z) (out : list ProfessionalCourse)
    (row : ProfessionalRow) :
  suggest_professional_courses professional_df missing limit = Ok out ->
  row ∈ professional_df ->
  covered missing (p_skills row) <> [] ->
  is_candidate missing (p_skills row)
  /\ (professional_entry missing row ∈ out
      \/ forall x, x ∈ out ->
           pc_total_covered (professional_entry missing row)
           <= pc_total_covered x).
Proof.
  intros [rest Hout]%suggest_professional_courses_out Hrow Hcov.
  assert (is_candidate missing (p_skills row)) as Hcand.
  { destruct (covered missing (p_skills row)) as [|s l] eqn:Hl; [done|].
    apply Is_true_true, (covering_course_is_candidate_aux _ _ s).
    rewrite Hl. left. }
  split; [done|].
  assert (professional_entry missing row ∈ out ++ rest) as Hin.
  { rewrite <-Hout, sort_reverse_perm. unfold professional_candidates.
    apply list_elem_of_fmap_2. by apply list_elem_of_filter. }
  apply elem_of_app in Hin as [Hin|Hin]; [by left|right].
  pose proof (professional_sorted
                (professional_candidates professional_df missing)) as Hs.
  rewrite Hout in Hs. apply StronglySorted_app in Hs as (Hcross & _ & _).
  intros x Hx. by apply Hcross.
Qed.

Lemma covering_course_ranked_witness :
  is_candidate ["excel"; "python"] (Text "excel")
  /\ (professional_entry ["excel"; "python"] (course "Intro" "excel")
    ∈ [professional_entry ["excel"; "python"] (course "A" "Excel, Python, R");
       professional_entry ["excel"; "python"] (course "B" "python, excel")]
  \/ forall x,
       x ∈ [professional_entry ["excel"; "python"]
              (course "A" "Excel, Python, R");
            professional_entry ["excel"; "python"]
              (course "B" "python, excel")] ->
       pc_total_covered
         (professional_entry ["excel"; "python"] (course "Intro" "excel"))
       <= pc_total_covered x).
Proof.
  apply (covering_course_ranked professional_scenario ["excel"; "python"] 2
           [professional_entry ["excel"; "python"]
              (course "A" "Excel, Python, R");
            professional_entry ["excel"; "python"]
              (course "B" "python, excel")]
           (course "Intro" "excel")).
  - reflexivity.
  - left.
  - done.
Defined.

(** ** Job search *)

Lemma sublist_fmap_filter {A B} (f : A -> B) (P : A -> Prop)
    `{!forall x, Decision (P x)} (l : list A) :
  f <$> filter P l `sublist_of` f <$> l.
Proof.
  induction l as [|x l IH]; [done|]. rewrite filter_cons.
  destruct (decide (P x)); rewrite !fmap_cons;
    [by apply sublist_skip|by apply sublist_cons].
Qed.

(** The suggestions of the search are at most ten titles of the file, in
    file order, and none of them is a missing value. *)
Theorem search_jobs_titles `{Regex} (df : list JobRow) (q : option string)
    (jobs : list cell) :
  search_jobs df q = Ok jobs ->
  length jobs <= 10
  /\ jobs `sublist_of` (job_title <$> df)
  /\ forall c, c ∈ jobs -> exists t, c = Text t.
Proof.
  unfold search_jobs, str_contains.
  destruct (re_compile _) as [search|]; simpl; [|done].
  intros [= <-]. split_and!.
  - rewrite length_take. lia.
  - etransitivity; [apply sublist_take|]. apply sublist_fmap_filter.
  - intros c Hc%subseteq_take.
    apply list_elem_of_fmap in Hc as (r & -> & [Hr _]%list_elem_of_filter).
    unfold str_lower in Hr. destruct (job_title r) as [t|]; [by exists t|done].
Qed.

Lemma search_jobs_titles_witness :
  search_jobs jobs_mixed (Some "DATA")
    = Ok [Text "Data Analyst"; Text "Data Engineer"]
  /\ [Text "Data Analyst"; Text "Data Engineer"]
     `sublist_of` (job_title <$> jobs_mixed).
Proof.
  split; [reflexivity|].
  apply (search_jobs_titles (H:=dot_regex) jobs_mixed (Some "DATA")
           [Text "Data Analyst"; Text "Data Engineer"] eq_refl).
Defined.

Lemma contains_empty s : Py.contains s EmptyString = true.
Proof. by destruct s. Qed.

(** For a query without special characters the suggestions are the first
    ten titles, in file order, whose lower-cased form contains the
    lower-cased query; for an absent or empty query, the first ten titles
    that are not missing. *)
Theorem search_jobs_literal `{RegexLiteral} (df : list JobRow)
    (q : option string) :
  re_literal (Py.lower (default EmptyString q)) ->
  search_jobs df q
  = Ok (take 10 (job_title <$>
                 filter (fun r => title_contains (default EmptyString q) r)
                        df))
  /\ (default EmptyString q = EmptyString ->
      search_jobs df q
      = Ok (take 10 (filter (fun c => c <> NaN) (job_title <$> df)))).
Proof.
  intros Hlit. unfold search_jobs, str_contains.
  apply re_compile_literal in Hlit as (search & -> & Hsearch). simpl.
  assert (filter
            (fun r => match str_lower (job_title r) with
                      | Text s => search s
                      | NaN => false
                      end = true) df
          = filter (fun r => title_contains (default EmptyString q) r) df)
    as ->.
  { apply list_filter_iff. intros r. unfold title_contains, str_lower.
    destruct (job_title r) as [t|]; [|done].
    by rewrite Hsearch, Is_true_true. }
  split; [done|]. intros ->. do 2 f_equal.
  induction df as [|r df IH]; [done|].
  rewrite fmap_cons, !filter_cons.
  destruct (decide (title_contains EmptyString r)) as [Hc|Hc],
           (decide (job_title r <> NaN)) as [Hn|Hn];
    rewrite ?fmap_cons, IH; try done.
  - unfold title_contains in Hc.
    destruct (job_title r); [by destruct Hn|done].
  - destruct Hc. unfold title_contains.
    destruct (job_title r) as [t|]; [|done].
    simpl. by rewrite contains_empty.
Qed.

Lemma search_jobs_literal_witness :
  search_jobs jobs_mixed (Some "data a")
  = Ok (take 10 (job_title <$>
                 filter (fun r => title_contains "data a" r) jobs_mixed)).
Proof.
  apply (search_jobs_literal jobs_mixed (Some "data a")). exact I.
Defined.

Example search_jobs_empty_query :
  search_jobs jobs_mixed None
  = Ok [Text "Data Analyst"; Text "C++ Developer"; Text "Data Engineer"].
Proof. reflexivity. Qed.

(** A suggestion of the search, sent back as the target job, is always
    resolved, by the exact-match step, to a row with that title up to
    case: the lookup neither raises nor answers "no job", whatever
    characters the title holds. *)
Theorem search_jobs_resolves `{Regex} (df : list JobRow) (q : option string)
    (jobs : list cell) (t current : string) :
  search_jobs df q = Ok jobs ->
  Text t ∈ jobs ->
  exists title required matched missing,
    find_missing_skills df t current
      = Ok (Gap (Text title) required matched missing)
    /\ Py.lower title = Py.lower t.
Proof.
  unfold search_jobs. destruct (str_contains _) as [found|e]; simpl; [|done].
  intros [= <-] Ht%subseteq_take.
  apply list_elem_of_fmap in Ht as (r & Hr & [_ Hin]%list_elem_of_filter).
  destruct (find (title_equals t) df) as [row|] eqn:Hfind.
  - destruct (find_title_equals _ _ _ Hfind) as (_ & title & Htitle & Hlow).
    exists title. do 3 eexists. split; [|done].
    rewrite (exact_match_gap df t current row Hfind). simpl.
    by rewrite Htitle.
  - rewrite find_none_iff in Hfind. specialize (Hfind r Hin).
    unfold title_equals in Hfind. rewrite <-Hr in Hfind.
    by rewrite bool_decide_eq_false in Hfind.
Qed.

Lemma search_jobs_resolves_witness :
  exists title required matched missing,
    find_missing_skills jobs_mixed "C++ Developer" "git"
      = Ok (Gap (Text title) required matched missing)
    /\ Py.lower title = Py.lower "C++ Developer".
Proof.
  apply (search_jobs_resolves (H:=dot_regex) jobs_mixed (Some "dev")
           [Text "C++ Developer"] "C++ Developer" "git" eq_refl).
  left.
Defined.

(** ** The POST branch of [index] *)

Lemma index_post_eq `{Number} `{!Regex} (db : Store)
    (target current : string) (hours_per_day : num) :
  index_post db target current hours_per_day =
    g ← find_missing_skills (job_details_df db) target current;
    match g with
    | NoJob => Ok ErrorPage
    | Gap _ required matched missing =>
        if Py.is_empty required then Ok ErrorPage
        else
          professional ←
            suggest_professional_courses (professional_df db) missing 4;
          foundation ←
            suggest_foundation_courses (foundation_df db) missing 4;
          Ok (ResultPage target required matched missing
                (calculate_total_duration (skill_time_df db) missing
                   hours_per_day).1
                (calculate_total_duration (skill_time_df db) missing
                   hours_per_day).2
                hours_per_day professional foundation)
    end.
Proof.
  unfold index_post.
  destruct (find_missing_skills _ _ _) as [[|title req ma mi]|e]; try done.
  simpl. destruct (Py.is_empty req); [done|].
  by destruct (calculate_total_duration _ _ _).
Qed.

Lemma index_post_page `{Number} `{!Regex} (db : Store)
    (target current : string) (hours_per_day : num)
    tj req ma mi td sh h prof found :
  index_post db target current hours_per_day
    = Ok (ResultPage tj req ma mi td sh h prof found) ->
  (exists title,
     find_missing_skills (job_details_df db) target current
       = Ok (Gap title req ma mi))
  /\ req <> [] /\ tj = target /\ h = hours_per_day
  /\ calculate_total_duration (skill_time_df db) mi hours_per_day = (td, sh)
  /\ suggest_professional_courses (professional_df db) mi 4 = Ok prof
  /\ suggest_foundation_courses (foundation_df db) mi 4 = Ok found.
Proof.
  rewrite index_post_eq.
  destruct (find_missing_skills _ _ _) as [[|title req' ma' mi']|e];
    simpl; try done.
  destruct req' as [|s req']; simpl; [done|].
  destruct (suggest_professional_courses _ _ _) as [prof'|e] eqn:Hp;
    simpl; [|done].
  destruct (suggest_foundation_courses _ _ _) as [found'|e] eqn:Hf;
    simpl; [|done].
  intros [= <- <- <- <- <- <- <- <- <-]. split_and!; try done.
  - by exists title.
  - by destruct (calculate_total_duration _ _ _).
Qed.

(** What a result page holds: a non-empty list of required skills, of
    which [matched] and [missing] are sublists; no missing skill is among
    the user's tokens; the keys of [skill_hours] are the missing skills;
    each list of courses has at most four entries, and every skill a
    recommended course is said to cover is a missing skill. *)
Theorem index_post_result_page {N : Number} {R : Regex} (db : Store)
    (target current : string) (hours_per_day : num)
    tj req ma mi td sh h prof found :
  index_post db target current hours_per_day
    = Ok (ResultPage tj req ma mi td sh h prof found) ->
  tj = target /\ h = hours_per_day /\ req <> []
  /\ ma `sublist_of` req /\ mi `sublist_of` req
  /\ (forall s, s ∈ mi -> s ∉ parse_skills (Text current))
  /\ (forall s, is_Some (Py.dict_get s sh) <-> s ∈ mi)
  /\ length prof <= 4 /\ length found <= 4
  /\ (forall c s, c ∈ prof -> s ∈ pc_covered_skills c -> s ∈ mi)
  /\ (forall c s, c ∈ found -> s ∈ fc_covered_skills c -> s ∈ mi).
Proof.
  intros ([title Hgap] & Hreq & -> & -> & Hcalc & Hprof & Hfound)
           %index_post_page.
  apply find_missing_skills_gap in Hgap as (row & _ & _ & _ & Hma & Hmi).
  split_and!; try done.
  - rewrite Hma. apply sublist_filter.
  - rewrite Hmi. apply sublist_filter.
  - intros s. rewrite Hmi. by intros [? _]%list_elem_of_filter.
  - intros s. rewrite calculate_total_duration_eq in Hcalc.
    injection Hcalc as _ <-. rewrite duration_loop_get.
    destruct (decide (s ∈ _)); [by split|]. split; [by intros [? ?]|done].
  - rewrite (suggest_professional_courses_eq _ _ _ _ Hprof).
    apply Nat2Z.inj_le, (slice_to_length 4). lia.
  - rewrite (suggest_foundation_courses_eq _ _ _ _ Hfound).
    apply Nat2Z.inj_le, (slice_to_length 4). lia.
  - intros c s Hc Hs.
    apply suggest_professional_courses_out in Hprof as [k Hout].
    assert (c ∈ professional_candidates (professional_df db) mi) as Hcand.
    { rewrite <-(sort_reverse_perm professional_lt), Hout.
      apply elem_of_app. by left. }
    apply professional_candidates_origin in Hcand as (r & _ & _ & ->).
    by apply covered_spec in Hs as [? _].
  - intros c s Hc Hs.
    apply suggest_foundation_courses_out in Hfound as [k Hout].
    assert (c ∈ foundation_candidates (foundation_df db) mi) as Hcand.
    { rewrite <-(sort_reverse_perm foundation_lt), Hout.
      apply elem_of_app. by left. }
    apply foundation_candidates_origin in Hcand as (r & _ & _ & ->).
    by apply covered_spec in Hs as [? _].
Qed.

Lemma index_post_result_page_witness :
  exists prof found,
    index_post store_scenario "data analyst" "SQL, Power BI" (Qnum 2)
    = Ok (ResultPage "data analyst" ["sql"; "excel"; "python"] ["sql"]
            ["excel"; "python"] (Qnum (25 # 10))
            [("excel", Some (Qnum 5)); ("python", None)] (Qnum 2)
            prof found)
    /\ length prof <= 4 /\ length found <= 4.
Proof.
  do 2 eexists. split; [reflexivity|].
  pose proof (index_post_result_page (N:=Q_number) (R:=dot_regex)
                store_scenario "data analyst" "SQL, Power BI" (Qnum 2)
                _ _ _ _ _ _ _ _ _ eq_refl)
    as (_ & _ & _ & _ & _ & _ & _ & Hprof & Hfound & _).
  by split.
Defined.

Lemma filter_all {A} (P : A -> Prop) `{!forall x, Decision (P x)}
    (l : list A) :
  (forall x, x ∈ l -> P x) -> filter P l = l.
Proof.
  intros Hall. induction l as [|x l IH]; [done|].
  rewrite filter_cons, decide_True by (apply Hall; left).
  f_equal. apply IH. intros y Hy. apply Hall. by right.
Qed.

(** A user who has every required skill gets the result page with
    nothing to learn: all required skills matched, none missing, an empty
    [skill_hours], the rounded zero as duration and no courses.  The
    course files are not read, so this holds whatever they contain. *)
Theorem index_post_all_skills_matched {N : Number} {R : Regex} (db : Store)
    (target current : string) (hours_per_day : num)
    title required matched missing :
  find_missing_skills (job_details_df db) target current
    = Ok (Gap title required matched missing) ->
  required <> [] ->
  (forall s, s ∈ required -> s ∈ parse_skills (Text current)) ->
  index_post db target current hours_per_day
  = Ok (ResultPage target required required []
          (nround1 (if ngt hours_per_day nzero
                    then ndiv nzero hours_per_day else nzero))
          [] hours_per_day [] []).
Proof.
  intros Hgap Hreq Hall. rewrite index_post_eq, Hgap.
  apply find_missing_skills_gap in Hgap as (row & _ & _ & _ & -> & ->).
  rewrite filter_all by done.
  rewrite filter_none by (intros s Hs Hn; by apply Hn, Hall).
  destruct required as [|s required]; [done|].
  cbn -[calculate_total_duration]. by rewrite calculate_total_duration_eq.
Qed.

Lemma index_post_all_skills_matched_witness :
  index_post store_unreadable "data analyst" "python, excel, sql" (Qnum 2)
  = Ok (ResultPage "data analyst" ["sql"; "excel"; "python"]
          ["sql"; "excel"; "python"] []
          (nround1 (if ngt (Qnum 2) nzero
                    then ndiv nzero (Qnum 2) else nzero))
          [] (Qnum 2) [] []).
Proof.
  apply (index_post_all_skills_matched (R:=dot_regex) store_unreadable
           "data analyst" "python, excel, sql" (Qnum 2)
           (Text "Data Analyst") ["sql"; "excel"; "python"]
           ["sql"; "excel"; "python"] []).
  - reflexivity.
  - done.
  - intros s Hs.
    change (parse_skills (Text "python, excel, sql"))
      with ["python"; "excel"; "sql"].
    rewrite !elem_of_cons in Hs |- *. tauto.
Defined.

(** For a target without special characters, the error page is returned
    exactly when no row is resolved for the target or the resolved row
    yields no required skill (its requirements field is missing or
    blank). *)
Theorem index_post_error_iff {N : Number} {R : Regex} {RL : RegexLiteral}
    (db : Store) (target current : string) (hours_per_day : num) :
  re_literal (Py.lower target) ->
  (index_post db target current hours_per_day = Ok ErrorPage
   <-> match resolve_job (job_details_df db) target with
       | None => True
       | Some row => parse_skills (skill_requirements row) = []
       end).
Proof.
  intros Hlit. rewrite index_post_eq, find_missing_skills_literal by done.
  simpl. destruct (resolve_job _ target) as [row|]; simpl; [|done].
  destruct (parse_skills (skill_requirements row)) as [|s req]; simpl;
    [done|].
  destruct (suggest_professional_courses _ _ _); simpl; [|done].
  destruct (suggest_foundation_courses _ _ _); simpl; done.
Qed.

Lemma index_post_error_iff_witness :
  index_post store_no_requirements "data analyst" "sql" (Qnum 2)
    = Ok ErrorPage
  <-> match resolve_job (job_details_df store_no_requirements)
              "data analyst" with
      | None => True
      | Some row => parse_skills (skill_requirements row) = []
      end.
Proof.
  apply (index_post_error_iff (R:=dot_regex) store_no_requirements
           "data analyst" "sql" (Qnum 2)).
  exact I.
Defined.


